(** * Universal Request Analyzer: the performance-metrics collector and the
    capture/aggregation rules of its test suite

  The collector is the class [PerformanceMetricsCollector] of the
  request-capture unit tests.  JavaScript numbers are IEEE-754 binary64
  values, which are Rocq's primitive floats; the [Map] from request ids to
  metric objects is a finite map with string keys; [Date.now()] and
  [Math.random()] are inputs of the operations that read them. *)

From Stdlib Require Import Floats ZArith Uint63 Ascii HexadecimalString.
From stdpp Require Import gmap strings list fin_maps pretty.

(** ** The fragment of JavaScript the collector relies on *)
Module Js.

(** [ToBoolean] on a Number: [+0], [-0] and [NaN] are falsy. *)
Definition truthy (x : float) : bool :=
  negb (PrimFloat.is_nan x || PrimFloat.is_zero x).

(** [x || 0] where [x] is a Number. *)
Definition or_zero (x : float) : float :=
  if truthy x then x else 0%float.

(** [x > y]. *)
Definition gt (x y : float) : bool := (y <? x)%float.

(** [x >= y]. *)
Definition ge (x y : float) : bool := (y <=? x)%float.

(** An array length (below 2^32) as a Number. *)
Definition of_nat (n : nat) : float :=
  PrimFloat.of_uint63 (Uint63.of_Z (Z.of_nat n)).

(** The values a caller can pass where the collector expects a timing
    object.  The properties of an object are Numbers; a property that is
    not there reads as [undefined], here [None]. *)
Inductive value :=
| Undefined
| Null
| Boolean (b : bool)
| Number (x : float)
| Str (s : string)
| Object (props : gmap string float).

(** [ToBoolean]. *)
Definition to_boolean (v : value) : bool :=
  match v with
  | Undefined | Null => false
  | Boolean b => b
  | Number x => truthy x
  | Str s => negb (String.eqb s EmptyString)
  | Object _ => true
  end.

Inductive error := TypeError.

(** The outcome of evaluating an expression or a call: a value, or a
    thrown exception. *)
Inductive completion (A : Type) :=
| Normal (a : A)
| Throw (e : error).
Arguments Normal {A} a.
Arguments Throw {A} e.

#[export] Instance completion_ret : MRet completion := @Normal.
#[export] Instance completion_bind : MBind completion :=
  λ A B f c, match c with Normal a => f a | Throw e => Throw e end.

(** Property read [v.p]: a [TypeError] on [undefined] and [null], and
    [undefined] on a primitive, which has no timing property. *)
Definition get (v : value) (p : string) : completion (option float) :=
  match v with
  | Undefined | Null => Throw TypeError
  | Boolean _ | Number _ | Str _ => Normal None
  | Object props => Normal (props !! p)
  end.

(** [x || 0] where [x] is the result of a property read. *)
Definition or_zero_prop (x : option float) : float :=
  match x with
  | Some n => or_zero n
  | None => 0%float
  end.

End Js.

(** ** PerformanceMetricsCollector *)
Module Collector.
Import Js.

(** The object stored per request.  The thirteen fields of the literal in
    [captureRequestStart] are always there; the five breakdown fields are
    added by [finalizeRequest] and are absent before. *)
Record Metric := {
  startTime : float;
  dnsStart : float;
  dnsEnd : float;
  connectStart : float;
  connectEnd : float;
  sslStart : float;
  sslEnd : float;
  sendStart : float;
  sendEnd : float;
  receiveStart : float;
  receiveEnd : float;
  endTime : float;
  total : float;
  dns : option float;
  tcp : option float;
  ssl : option float;
  ttfb : option float;
  download : option float
}.

Record Collector := {
  enabled : bool;
  samplingRate : float;
  metrics : gmap string Metric;
  retentionPeriod : float
}.

(** [new PerformanceMetricsCollector(config)]. *)
Definition new (enabled : bool) (samplingRate retentionPeriod : float) : Collector :=
  {| enabled := enabled; samplingRate := samplingRate;
     metrics := ∅; retentionPeriod := retentionPeriod |}.

Definition with_metrics (c : Collector) (ms : gmap string Metric) : Collector :=
  {| enabled := enabled c; samplingRate := samplingRate c;
     metrics := ms; retentionPeriod := retentionPeriod c |}.

(** [shouldCapture()]; [random] is the value of [Math.random()], a Number
    in the interval from 0 (included) to 1 (excluded). *)
Definition shouldCapture (c : Collector) (random : float) : bool :=
  enabled c && (random * 100 <=? samplingRate c)%float.

(** The object literal of [captureRequestStart]. *)
Definition initial (timestamp : float) : Metric :=
  {| startTime := timestamp;
     dnsStart := 0; dnsEnd := 0;
     connectStart := 0; connectEnd := 0;
     sslStart := 0; sslEnd := 0;
     sendStart := 0; sendEnd := 0;
     receiveStart := 0; receiveEnd := 0;
     endTime := 0; total := 0;
     dns := None; tcp := None; ssl := None; ttfb := None; download := None |}.

Definition captureRequestStart (c : Collector) (requestId : string)
    (timestamp random : float) : Collector :=
  if negb (shouldCapture c random) then c
  else with_metrics c (<[requestId := initial timestamp]> (metrics c)).

(** The ten assignments under [if (timing)]. *)
Definition assign_timing (metric : Metric) (timing : value) : completion Metric :=
  dnsStart' ← get timing "dnsStart";
  dnsEnd' ← get timing "dnsEnd";
  connectStart' ← get timing "connectStart";
  connectEnd' ← get timing "connectEnd";
  sslStart' ← get timing "sslStart";
  sslEnd' ← get timing "sslEnd";
  sendStart' ← get timing "sendStart";
  sendEnd' ← get timing "sendEnd";
  receiveStart' ← get timing "receiveStart";
  receiveEnd' ← get timing "receiveEnd";
  mret {| startTime := startTime metric;
          dnsStart := or_zero_prop dnsStart';
          dnsEnd := or_zero_prop dnsEnd';
          connectStart := or_zero_prop connectStart';
          connectEnd := or_zero_prop connectEnd';
          sslStart := or_zero_prop sslStart';
          sslEnd := or_zero_prop sslEnd';
          sendStart := or_zero_prop sendStart';
          sendEnd := or_zero_prop sendEnd';
          receiveStart := or_zero_prop receiveStart';
          receiveEnd := or_zero_prop receiveEnd';
          endTime := endTime metric;
          total := total metric;
          dns := dns metric; tcp := tcp metric; ssl := ssl metric;
          ttfb := ttfb metric; download := download metric |}.

Definition updateRequestTiming (c : Collector) (requestId : string)
    (timing : value) : completion Collector :=
  match metrics c !! requestId with
  | None => mret c
  | Some metric =>
      if to_boolean timing then
        metric' ← assign_timing metric timing;
        mret (with_metrics c (<[requestId := metric']> (metrics c)))
      else mret c
  end.

(** The assignments of [finalizeRequest] to the stored object. *)
Definition finalize (metric : Metric) (endTime : float) : Metric :=
  {| startTime := startTime metric;
     dnsStart := dnsStart metric; dnsEnd := dnsEnd metric;
     connectStart := connectStart metric; connectEnd := connectEnd metric;
     sslStart := sslStart metric; sslEnd := sslEnd metric;
     sendStart := sendStart metric; sendEnd := sendEnd metric;
     receiveStart := receiveStart metric; receiveEnd := receiveEnd metric;
     endTime := endTime;
     total := or_zero (endTime - startTime metric)%float;
     dns := Some (or_zero (dnsEnd metric - dnsStart metric)%float);
     tcp := Some (or_zero (connectEnd metric - connectStart metric
                           - (sslEnd metric - sslStart metric))%float);
     ssl := Some (or_zero (sslEnd metric - sslStart metric)%float);
     ttfb := Some (or_zero (receiveStart metric - sendEnd metric)%float);
     download := Some (or_zero (receiveEnd metric - receiveStart metric)%float) |}.

(** [finalizeRequest]: the collector afterwards and the returned value,
    [None] for [undefined].  The returned object is the stored one. *)
Definition finalizeRequest (c : Collector) (requestId : string)
    (endTime : float) : Collector * option Metric :=
  match metrics c !! requestId with
  | None => (c, None)
  | Some metric =>
      let metric' := finalize metric endTime in
      (with_metrics c (<[requestId := metric']> (metrics c)), Some metric')
  end.

Definition getMetrics (c : Collector) (requestId : string) : option Metric :=
  metrics c !! requestId.

(** The test of the loop of [cleanupOldMetrics]. *)
Definition expired (c : Collector) (now : float) (metric : Metric) : bool :=
  gt (now - endTime metric)%float (retentionPeriod c).

(** [cleanupOldMetrics()]; [now] is the value of [Date.now()].  The loop
    visits every entry of the map once and deletes the ones that test
    [expired]. *)
Definition cleanupOldMetrics (c : Collector) (now : float) : Collector :=
  with_metrics c
    (map_fold (λ requestId metric ms,
                 if expired c now metric then delete requestId ms else ms)
              (metrics c) (metrics c)).

(** The ten phase timestamps, to speak of them one at a time. *)
Inductive phase :=
| DnsStart | DnsEnd | ConnectStart | ConnectEnd | SslStart | SslEnd
| SendStart | SendEnd | ReceiveStart | ReceiveEnd.

(** The property name of a phase timestamp. *)
Definition phase_name (p : phase) : string :=
  match p with
  | DnsStart => "dnsStart" | DnsEnd => "dnsEnd"
  | ConnectStart => "connectStart" | ConnectEnd => "connectEnd"
  | SslStart => "sslStart" | SslEnd => "sslEnd"
  | SendStart => "sendStart" | SendEnd => "sendEnd"
  | ReceiveStart => "receiveStart" | ReceiveEnd => "receiveEnd"
  end.

(** The stored value of a phase timestamp. *)
Definition phase_of (p : phase) (metric : Metric) : float :=
  match p with
  | DnsStart => dnsStart metric | DnsEnd => dnsEnd metric
  | ConnectStart => connectStart metric | ConnectEnd => connectEnd metric
  | SslStart => sslStart metric | SslEnd => sslEnd metric
  | SendStart => sendStart metric | SendEnd => sendEnd metric
  | ReceiveStart => receiveStart metric | ReceiveEnd => receiveEnd metric
  end.

(** How a breakdown value [v] relates to the timestamp difference [d] it is
    computed from: [+0] when the difference is [NaN], and otherwise equal to
    it as a Number ([-0] and [+0] are equal Numbers), and the very same
    Number when the difference is not a zero. *)
Definition breakdown_of (d v : float) : Prop :=
  (PrimFloat.is_nan d = true → v = 0%float) ∧
  (PrimFloat.is_nan d = false → (d =? v)%float = true) ∧
  (PrimFloat.is_nan d = false → PrimFloat.is_zero d = false → v = d).

(** *** The collectors of the unit tests *)

Definition week : float := 604800000%float.

(** [beforeEach] of the suite, then [captureRequestStart("req1", 1000)]. *)
Definition started : Collector :=
  captureRequestStart (new true 100 week) "req1" 1000 0.5.

(** [started] after [updateRequestTiming("req1", {dnsStart: 100, dnsEnd: 150})]. *)
Definition resolved_metric : Metric :=
  {| startTime := 1000;
     dnsStart := 100; dnsEnd := 150;
     connectStart := 0; connectEnd := 0;
     sslStart := 0; sslEnd := 0;
     sendStart := 0; sendEnd := 0;
     receiveStart := 0; receiveEnd := 0;
     endTime := 0; total := 0;
     dns := None; tcp := None; ssl := None; ttfb := None; download := None |}.

Definition resolved : Collector :=
  with_metrics started {[ "req1" := resolved_metric ]}.

(** The metric of req1 after the [beforeEach] of "Finalize Request". *)
Definition timed_metric : Metric :=
  {| startTime := 1000;
     dnsStart := 1000; dnsEnd := 1050;
     connectStart := 1050; connectEnd := 1150;
     sslStart := 1100; sslEnd := 1150;
     sendStart := 0; sendEnd := 1150;
     receiveStart := 1350; receiveEnd := 1450;
     endTime := 0; total := 0;
     dns := None; tcp := None; ssl := None; ttfb := None; download := None |}.

Definition timed : Collector := with_metrics started {[ "req1" := timed_metric ]}.

(** [lowSampleCollector] of "should respect sampling rate". *)
Definition lowSampleCollector : Collector := new true 0 1000.

(** A value of [Date.now()]. *)
Definition today : float := 1700000000000%float.

(** "should remove old metrics" up to the call of [cleanupOldMetrics]:
    old-req is captured and finalized eight days ago, recent-req is
    captured today and never finalized. *)
Definition before_cleanup : Collector :=
  let oldTimestamp := (today - 8 * 24 * 60 * 60 * 1000)%float in
  let c1 := captureRequestStart (new true 100 week) "old-req" oldTimestamp 0.5 in
  let c2 := (finalizeRequest c1 "old-req" oldTimestamp).1 in
  captureRequestStart c2 "recent-req" today 0.5.

(** The timing object of [beforeEach] in "Finalize Request". *)
Definition full_timing : gmap string float :=
  {[ "dnsStart" := 1000%float; "dnsEnd" := 1050%float;
     "connectStart" := 1050%float; "connectEnd" := 1150%float;
     "sslStart" := 1100%float; "sslEnd" := 1150%float;
     "sendEnd" := 1150%float;
     "receiveStart" := 1350%float; "receiveEnd" := 1450%float ]}.

End Collector.

(** ** Aggregate statistics *)
Module Stats.

(** What the statistics tests read of a captured request. *)
Record Request := {
  status : float;
  responseTime : float
}.

(** [r.status >= 200 && r.status < 300]. *)
Definition successful (r : Request) : bool :=
  Js.ge (status r) 200 && (status r <? 300)%float.

(** [requests.length]. *)
Definition totalRequests (requests : list Request) : nat := length requests.

(** [requests.filter((r) => r.status >= 200 && r.status < 300).length]. *)
Definition successfulRequests (requests : list Request) : nat :=
  length (List.filter successful requests).

(** [requests.reduce((sum, r) => sum + r.responseTime, 0)]. *)
Definition totalTime (requests : list Request) : float :=
  foldl (λ sum r, (sum + responseTime r)%float) 0%float requests.

(** [requests.reduce(...) / requests.length]. *)
Definition avgResponseTime (requests : list Request) : float :=
  (totalTime requests / Js.of_nat (length requests))%float.

(** The three requests of "should calculate aggregate stats". *)
Definition sample : list Request :=
  [ {| status := 200; responseTime := 100 |};
    {| status := 200; responseTime := 200 |};
    {| status := 404; responseTime := 150 |} ].

End Stats.

(** ** GoldAggregator *)
Module Gold.

(** Modelled from the spec: the row kept per (dimensionKey, timeBucket).
    The aggregator is not in the source, which has the computations of
    [Stats] only.  The average is not a field. *)
Record GoldFact := {
  totalRequests : nat;
  successCount : nat;
  errorCount : nat;
  sumResponseTime : float
}.

(** Modelled from the spec: a validated record as the aggregator reads it,
    with the key of its domain and the bucket (the day) of its timestamp. *)
Record SilverRecord := {
  domainKey : nat;
  timeBucket : nat;
  request : Stats.Request
}.

(** Modelled from the spec: the error bucket.  The spec names the bucket
    and counts a 404 in it; it is taken here as the 4xx and 5xx classes
    that the mock analytics object of the test helpers separates from 2xx
    and 3xx. *)
Definition failed (r : Stats.Request) : bool := Js.ge (Stats.status r) 400.

Definition empty_fact : GoldFact :=
  {| totalRequests := 0; successCount := 0; errorCount := 0;
     sumResponseTime := 0 |}.

(** Modelled from the spec: the increments of [applyDelta] on one row. *)
Definition increment (f : GoldFact) (r : Stats.Request) : GoldFact :=
  {| totalRequests := S (totalRequests f);
     successCount := if Stats.successful r then S (successCount f) else successCount f;
     errorCount := if failed r then S (errorCount f) else errorCount f;
     sumResponseTime := (sumResponseTime f + Stats.responseTime r)%float |}.

(** Modelled from the spec: [applyDelta] locates or creates the row of the
    record's (domainKey, timeBucket) and increments it. *)
Definition applyDelta (facts : gmap (nat * nat) GoldFact) (r : SilverRecord)
    : gmap (nat * nat) GoldFact :=
  let key := (domainKey r, timeBucket r) in
  <[key := increment (default empty_fact (facts !! key)) (request r)]> facts.

(** Modelled from the spec: the derived average,
    [sumResponseTime / totalRequests]. *)
Definition avgResponseTime (f : GoldFact) : float :=
  (sumResponseTime f / Js.of_nat (totalRequests f))%float.

(** The requests of [Stats.sample] as records of one domain and one day. *)
Definition sample (domainKey day : nat) : list SilverRecord :=
  (λ r, {| domainKey := domainKey; timeBucket := day; request := r |})
    <$> Stats.sample.

End Gold.

(** ** CaptureFilter *)
Module CaptureFilter.

(** [list.includes(x)] on an array of strings, as the filtering tests use
    it. *)
Fixpoint includes (array : list string) (x : string) : bool :=
  match array with
  | [] => false
  | y :: rest => if String.eqb y x then true else includes rest x
  end.

(** [captureFilters] of the settings object. *)
Record Filters := {
  includeDomains : list string;
  excludeDomains : list string;
  includeTypes : list string;
  excludeTypes : list string
}.

Record Request := {
  domain : string;
  type : string
}.

(** [list.length === 0]. *)
Definition is_empty (array : list string) : bool :=
  match array with
  | [] => true
  | _ :: _ => false
  end.

(** Modelled from the spec: the capture decision.  The source has the
    membership tests on single lists only; the function that combines them
    is not there. *)
Definition allowed (f : Filters) (r : Request) : bool :=
  negb (includes (excludeDomains f) (domain r)) &&
  (is_empty (includeDomains f) || includes (includeDomains f) (domain r)) &&
  negb (includes (excludeTypes f) (type r)) &&
  (is_empty (includeTypes f) || includes (includeTypes f) (type r)).

End CaptureFilter.

(** ** BronzeStore *)
Module BronzeStore.

(** Modelled from the spec: the BronzeRecord of the data model, which has
    the fields of the mock requests of the test helpers. *)
Record BronzeRecord := {
  id : string;
  url : string;
  method : string;
  domain : string;
  status : float;
  responseTime : float;
  timestamp : float;
  rawHeaders : list (string * string)
}.

(** [new Set(existingRequests.map((r) => r.id))] of the import test. *)
Definition existingIds (existing : list BronzeRecord) : gset string :=
  list_to_set (id <$> existing).

(** "Strategy 1: Skip duplicates" of the import test:
    [requests.filter((r) => !existingIds.has(r.id))]. *)
Definition skipDuplicates (existing requests : list BronzeRecord)
    : list BronzeRecord :=
  List.filter (λ r, negb (bool_decide (id r ∈ existingIds existing))) requests.

(** The outcome of an insert as the caller sees it. *)
Inductive outcome := Success | StorageError.

(** What the INSERT statement of the storage layer throws. *)
Inductive statement_error := UniqueConstraintFailed | LayerFailure.

(** What a run of the INSERT statement gives: the table afterwards, or an
    exception. *)
Inductive statement_result :=
| Changes (table : list BronzeRecord)
| Throws (e : statement_error).

(** Modelled from the spec: the INSERT statement of the storage layer, which
    the source has as a mock only.  [fault] says that the persistence layer
    fails during this run.  A row whose id is in the table violates the
    unique constraint, and the run throws as the statement of "should handle
    constraint violations" does; otherwise the row is appended. *)
Definition run (fault : bool) (table : list BronzeRecord) (record : BronzeRecord)
    : statement_result :=
  if fault then Throws LayerFailure
  else if bool_decide (id record ∈ existingIds table) then Throws UniqueConstraintFailed
  else Changes (table ++ [record]).

(** Modelled from the spec: [insert] on the append-only log, in insertion
    order.  The store is not in the source (its tests run against a mock
    statement).  A record that [skipDuplicates] does not let through is a
    no-op: no statement is run and the insert reports success.  Otherwise
    the statement is run; a violation of the unique constraint is absorbed,
    and a failure of the storage layer surfaces as [StorageError] with the
    store as it was. *)
Definition insert (fault : bool) (store : list BronzeRecord)
    (record : BronzeRecord) : outcome * list BronzeRecord :=
  match skipDuplicates store [record] with
  | [] => (Success, store)
  | new :: _ =>
      match run fault store new with
      | Changes store' => (Success, store')
      | Throws UniqueConstraintFailed => (Success, store)
      | Throws LayerFailure => (StorageError, store)
      end
  end.

(** The rows of an id. *)
Definition rows (store : list BronzeRecord) (i : string) : list BronzeRecord :=
  List.filter (λ r, String.eqb (id r) i) store.

(** Modelled from the spec: ids are unique in the store. *)
Definition unique_ids (store : list BronzeRecord) : Prop := NoDup (id <$> store).

End BronzeStore.

(** ** Sequences of calls on a collector *)
Module Session.
Import Js Collector.

(** The calls a user of the collector makes, with the values that
    [Math.random()] and [Date.now()] have during the call. *)
Inductive call :=
| CaptureRequestStart (requestId : string) (timestamp random : float)
| UpdateRequestTiming (requestId : string) (timing : value)
| FinalizeRequest (requestId : string) (endTime : float)
| CleanupOldMetrics (now : float).

(** One call; its return value is dropped. *)
Definition step (c : Collector) (k : call) : completion Collector :=
  match k with
  | CaptureRequestStart requestId timestamp random =>
      mret (captureRequestStart c requestId timestamp random)
  | UpdateRequestTiming requestId timing => updateRequestTiming c requestId timing
  | FinalizeRequest requestId endTime => mret (finalizeRequest c requestId endTime).1
  | CleanupOldMetrics now => mret (cleanupOldMetrics c now)
  end.

(** The calls one after the other; an exception ends the sequence. *)
Fixpoint run (c : Collector) (calls : list call) : completion Collector :=
  match calls with
  | [] => mret c
  | k :: rest => c' ← step c k; run c' rest
  end.

(** The request ids that the calls pass to [captureRequestStart]. *)
Fixpoint captured (calls : list call) : list string :=
  match calls with
  | [] => []
  | CaptureRequestStart requestId _ _ :: rest => requestId :: captured rest
  | _ :: rest => captured rest
  end.

(** No computed field of the metric is [NaN]: the phase timestamps, the
    total and the breakdown values that are there. *)
Definition nan_free (m : Metric) : Prop :=
  (∀ p, PrimFloat.is_nan (phase_of p m) = false) ∧
  PrimFloat.is_nan (total m) = false ∧
  (∀ x, dns m = Some x → PrimFloat.is_nan x = false) ∧
  (∀ x, tcp m = Some x → PrimFloat.is_nan x = false) ∧
  (∀ x, ssl m = Some x → PrimFloat.is_nan x = false) ∧
  (∀ x, ttfb m = Some x → PrimFloat.is_nan x = false) ∧
  (∀ x, download m = Some x → PrimFloat.is_nan x = false).

(** The calls of the "Finalize Request" tests, with a sweep a day later. *)
Definition sample : list call :=
  [ CaptureRequestStart "req1" 1000 0.5;
    UpdateRequestTiming "req1" (Object full_timing);
    FinalizeRequest "req1" 1450;
    CleanupOldMetrics 86401450 ].

End Session.

(** ** Plain objects used as dictionaries *)
Module JsObject.

(** The property names of [Object.prototype]; a plain object has them
    without storing them. *)
Definition prototype_names : list string :=
  [ "constructor"; "__defineGetter__"; "__defineSetter__"; "hasOwnProperty";
    "__lookupGetter__"; "__lookupSetter__"; "isPrototypeOf";
    "propertyIsEnumerable"; "toString"; "valueOf"; "__proto__";
    "toLocaleString" ].

Definition inherited (key : string) : bool :=
  bool_decide (key ∈ prototype_names).

End JsObject.

(** ** The localStorage mock of the test setup *)
Module LocalStorage.
Import JsObject.

(** What [getItem] returns: [null], a stored string, or a property that the
    store object inherits from [Object.prototype]. *)
Inductive item :=
| Null
| Text (s : string)
| Builtin (name : string).

(** [getItem]: [store[key] || null].  The empty string is falsy; the
    inherited properties are functions and objects, which are truthy. *)
Definition getItem (store : gmap string string) (key : string) : item :=
  match store !! key with
  | Some s => if String.eqb s EmptyString then Null else Text s
  | None => if inherited key then Builtin key else Null
  end.

(** [setItem] with a string [value], whose [toString()] is itself:
    [store[key] = value.toString()].  The assignment to [__proto__] goes to
    the setter of [Object.prototype], which ignores a string. *)
Definition setItem (store : gmap string string) (key value : string)
    : gmap string string :=
  if String.eqb key "__proto__" then store else <[key := value]> store.

(** [removeItem]: [delete store[key]]. *)
Definition removeItem (store : gmap string string) (key : string)
    : gmap string string :=
  delete key store.

(** [clear]: [store = {}]. *)
Definition clear (store : gmap string string) : gmap string string := ∅.

(** [length]: [Object.keys(store).length]. *)
Definition length (store : gmap string string) : nat := size store.

End LocalStorage.

(** ** The storage mock of the test helpers *)
Module MockStorage.
Import JsObject.

Section Values.

(** The values that are stored, other than [undefined] and the properties
    of [Object.prototype]. *)
Variable V : Type.

Inductive val :=
| Undefined
| Value (v : V)
| Builtin (name : string).

(** The argument of [get] and [remove]: [undefined], a string or an array
    of strings. *)
Inductive keys :=
| NoKeys
| Key (key : string)
| Keys (array : list string).

(** [key in store]. *)
Definition has (store : gmap string val) (key : string) : bool :=
  bool_decide (is_Some (store !! key)) || inherited key.

(** [store[key]]. *)
Definition read (store : gmap string val) (key : string) : val :=
  match store !! key with
  | Some v => v
  | None => if inherited key then Builtin key else Undefined
  end.

(** [result[key] = value] on the plain object [result]: [__proto__] goes
    to the setter of [Object.prototype] and adds no property. *)
Definition assign (result : gmap string val) (key : string) (value : val)
    : gmap string val :=
  if String.eqb key "__proto__" then result else <[key := value]> result.

(** [get(keys)]: the own properties of the object the promise resolves
    to.  A falsy argument, the empty string included, gives the store. *)
Definition get (store : gmap string val) (k : keys) : gmap string val :=
  match k with
  | NoKeys => store
  | Key key =>
      if String.eqb key EmptyString then store
      else {[ key := read store key ]}
  | Keys array =>
      foldl (λ result key,
               if has store key then assign result key (read store key)
               else result)
            ∅ array
  end.

(** [set(items)]: [Object.assign(store, items)], for [items] without a
    property named [__proto__], which would go to the setter of
    [Object.prototype] instead of being stored. *)
Definition set (store items : gmap string val) : gmap string val :=
  items ∪ store.

(** [Array.isArray(keys) ? keys : [keys]]; as a property name,
    [undefined] is the string "undefined". *)
Definition keysArray (k : keys) : list string :=
  match k with
  | NoKeys => ["undefined"]
  | Key key => [key]
  | Keys array => array
  end.

(** [remove(keys)]: [delete store[key]] for each key. *)
Definition remove (store : gmap string val) (k : keys) : gmap string val :=
  foldl (λ store key, delete key store) store (keysArray k).

(** [clear()]: every own key is deleted. *)
Definition clear (store : gmap string val) : gmap string val :=
  foldl (λ store key, delete key store) store (map_to_list store).*1.

End Values.

Arguments Undefined {V}.
Arguments Value {V} v.
Arguments Builtin {V} name.

End MockStorage.

(** ** The mock requests of the test helpers *)
Module MockData.

Record MockRequest := {
  id : string;
  url : string;
  method : string;
  domain : string;
  pageUrl : string;
  status : float;
  statusText : string;
  responseTime : float;
  timestamp : float;
  requestHeaders : gmap string string;
  responseHeaders : gmap string string;
  requestBody : option string;
  responseBody : option string;
  type : string
}.

(** The [overrides] argument: an object that has some of the properties of
    a request, each with a value of the property's type. *)
Module Overrides.
Record t := {
  id : option string;
  url : option string;
  method : option string;
  domain : option string;
  pageUrl : option string;
  status : option float;
  statusText : option string;
  responseTime : option float;
  timestamp : option float;
  requestHeaders : option (gmap string string);
  responseHeaders : option (gmap string string);
  requestBody : option (option string);
  responseBody : option (option string);
  type : option string
}.

(** [{}], the default argument. *)
Definition none : t :=
  {| id := None; url := None; method := None; domain := None;
     pageUrl := None; status := None; statusText := None;
     responseTime := None; timestamp := None; requestHeaders := None;
     responseHeaders := None; requestBody := None; responseBody := None;
     type := None |}.
End Overrides.

(** What a call of [createMockRequest] reads of its environment: the value
    of [Date.now()] and the value of the template
    [`req-${Date.now()}-${Math.random()}`]. *)
Record Env := {
  now : float;
  generated : string
}.

(** [{ ...request, ...overrides }]. *)
Definition spread (request : MockRequest) (overrides : Overrides.t) : MockRequest :=
  {| id := default (id request) (Overrides.id overrides);
     url := default (url request) (Overrides.url overrides);
     method := default (method request) (Overrides.method overrides);
     domain := default (domain request) (Overrides.domain overrides);
     pageUrl := default (pageUrl request) (Overrides.pageUrl overrides);
     status := default (status request) (Overrides.status overrides);
     statusText := default (statusText request) (Overrides.statusText overrides);
     responseTime := default (responseTime request) (Overrides.responseTime overrides);
     timestamp := default (timestamp request) (Overrides.timestamp overrides);
     requestHeaders :=
       default (requestHeaders request) (Overrides.requestHeaders overrides);
     responseHeaders :=
       default (responseHeaders request) (Overrides.responseHeaders overrides);
     requestBody := default (requestBody request) (Overrides.requestBody overrides);
     responseBody := default (responseBody request) (Overrides.responseBody overrides);
     type := default (type request) (Overrides.type overrides) |}.

Definition createMockRequest (env : Env) (overrides : Overrides.t) : MockRequest :=
  let id :=
    match Overrides.id overrides with
    | Some s => if String.eqb s EmptyString then generated env else s
    | None => generated env
    end in
  spread
    {| id := id;
       url := "https://api.example.com/test";
       method := "GET";
       domain := "example.com";
       pageUrl := "https://example.com/page";
       status := 200;
       statusText := "OK";
       responseTime := 234;
       timestamp := now env;
       requestHeaders :=
         {[ "Content-Type" := "application/json"; "User-Agent" := "Mozilla/5.0" ]};
       responseHeaders :=
         {[ "Content-Type" := "application/json"; "Content-Length" := "1234" ]};
       requestBody := None;
       responseBody := None;
       type := "xmlhttprequest" |}
    overrides.

(** [{ ...baseOverrides, id, url, timestamp }]. *)
Definition indexed (baseOverrides : Overrides.t) (id url : string)
    (timestamp : float) : Overrides.t :=
  {| Overrides.id := Some id;
     Overrides.url := Some url;
     Overrides.method := Overrides.method baseOverrides;
     Overrides.domain := Overrides.domain baseOverrides;
     Overrides.pageUrl := Overrides.pageUrl baseOverrides;
     Overrides.status := Overrides.status baseOverrides;
     Overrides.statusText := Overrides.statusText baseOverrides;
     Overrides.responseTime := Overrides.responseTime baseOverrides;
     Overrides.timestamp := Some timestamp;
     Overrides.requestHeaders := Overrides.requestHeaders baseOverrides;
     Overrides.responseHeaders := Overrides.responseHeaders baseOverrides;
     Overrides.requestBody := Overrides.requestBody baseOverrides;
     Overrides.responseBody := Overrides.responseBody baseOverrides;
     Overrides.type := Overrides.type baseOverrides |}.

(** [createMockRequests(count, baseOverrides)]; [clock i] is the value of
    [Date.now()] in the callback of index [i], and [env i] the environment
    of the call of [createMockRequest] it makes. *)
Definition createMockRequests (count : nat) (baseOverrides : Overrides.t)
    (clock : nat → float) (env : nat → Env) : list MockRequest :=
  (λ i, createMockRequest (env i)
          (indexed baseOverrides
             ("req-" +:+ pretty i)
             ("https://api.example.com/test-" +:+ pretty i)
             (clock i - Js.of_nat i * 1000)%float))
    <$> seq 0 count.

(** [new Set(existingRequests.map((r) => r.id))] of "should handle import
    conflicts". *)
Definition existingIds (existingRequests : list MockRequest) : gset string :=
  list_to_set (id <$> existingRequests).

(** [importData.requests.filter((r) => !existingIds.has(r.id))]. *)
Definition newRequests (existingRequests requests : list MockRequest)
    : list MockRequest :=
  List.filter (λ r, negb (bool_decide (id r ∈ existingIds existingRequests)))
    requests.

End MockData.

(** ** The randomUUID mock of the test setup *)
Module Uuid.

(** [v.toString(16)] for an integer [v] that is not negative. *)
Definition toString16 (v : N) : string :=
  NilZero.string_of_uint (N.to_hex_uint v).

(** The callback of [replace]: [c] is the matched character and [r] the
    value of [(Math.random() * 16) | 0]. *)
Definition replacement (c : ascii) (r : N) : string :=
  let v := if Ascii.eqb c "x" then r else N.lor (N.land r 3) 8 in
  toString16 v.

(** [template.replace(/[xy]/g, callback)]: the callback is called once per
    match, from left to right; [draws i] is the [r] of the call number [i]. *)
Fixpoint replace_xy (template : string) (draws : nat → N) (i : nat) : string :=
  match template with
  | EmptyString => EmptyString
  | String c rest =>
      if Ascii.eqb c "x" || Ascii.eqb c "y"
      then replacement c (draws i) +:+ replace_xy rest draws (S i)
      else String c (replace_xy rest draws i)
  end.

Definition randomUUID (draws : nat → N) : string :=
  replace_xy "xxxxxxxx-xxxx-4xxx-yxxx-xxxxxxxxxxxx" draws 0.

(** [c] is one of the characters of [s]. *)
Fixpoint occurs (c : ascii) (s : string) : bool :=
  match s with
  | EmptyString => false
  | String c' rest => Ascii.eqb c c' || occurs c rest
  end.

Definition is_hex (c : ascii) : bool := occurs c "0123456789abcdefABCDEF".

Definition is_variant (c : ascii) : bool := occurs c "89abAB".

(** One character class per position, for the regular expression of the
    id-generator tests:
    [/^[0-9a-f]{8}-[0-9a-f]{4}-4[0-9a-f]{3}-[89ab][0-9a-f]{3}-[0-9a-f]{12}$/i]. *)
Definition uuid_v4_pattern : list (ascii → bool) :=
  replicate 8 is_hex ++ [Ascii.eqb "-"] ++
  replicate 4 is_hex ++ [Ascii.eqb "-"] ++
  [Ascii.eqb "4"] ++ replicate 3 is_hex ++ [Ascii.eqb "-"] ++
  [is_variant] ++ replicate 3 is_hex ++ [Ascii.eqb "-"] ++
  replicate 12 is_hex.

(** The string has one character per class of the pattern, each in its
    class. *)
Fixpoint matches (pattern : list (ascii → bool)) (s : string) : bool :=
  match pattern, s with
  | [], EmptyString => true
  | p :: pattern', String c rest => p c && matches pattern' rest
  | _, _ => false
  end.

Definition is_uuid_v4 (s : string) : bool := matches uuid_v4_pattern s.

(** The first character of [v.toString(16)]. *)
Definition hex_char (v : N) : ascii :=
  match toString16 v with
  | String c _ => c
  | EmptyString => "0"%char
  end.

End Uuid.

(** * Properties of the collector *)
Module CollectorSpec.
Import Js Collector.

(** ** JavaScript numbers *)

Lemma or_zero_breakdown (d : float) : breakdown_of d (or_zero d).
Proof.
  unfold breakdown_of, or_zero, truthy.
  destruct (PrimFloat.is_nan d) eqn:Hnan; simpl.
  - repeat split; intros; congruence.
  - destruct (PrimFloat.is_zero d) eqn:Hzero; simpl.
    + repeat split; intros; try congruence. exact Hzero.
    + repeat split; intros; try congruence.
      unfold PrimFloat.is_nan in Hnan. by apply negb_false_iff in Hnan.
Qed.

Lemma or_zero_prop_cases (x : option float) :
  or_zero_prop x =
    match x with
    | Some v => if truthy v then v else 0%float
    | None => 0%float
    end.
Proof. by destruct x. Qed.

Lemma SFltb_irrefl (x : spec_float) : SFltb x x = false.
Proof.
  unfold SFltb, SFcompare.
  destruct x as [[]|[]| |[] m e]; try done;
    by rewrite Z.compare_refl, Pos.compare_cont_refl.
Qed.

Lemma SFcompare_antisym (x y : spec_float) :
  SFcompare y x = CompOpp <$> SFcompare x y.
Proof.
  destruct x as [[]|[]| |[] m1 e1], y as [[]|[]| |[] m2 e2]; simpl;
    try done;
    rewrite (Z.compare_antisym e1 e2);
    destruct (e1 ?= e2)%Z eqn:He; simpl; try done;
    pose proof (Pos.compare_cont_antisym m1 m2 Eq) as Hm; simpl in Hm;
    rewrite <- Hm; by destruct (Pos.compare_cont Eq m1 m2).
Qed.

(** [x > x] is false for every Number. *)
Lemma gt_irrefl (x : float) : gt x x = false.
Proof. unfold gt. rewrite FloatAxioms.ltb_spec. apply SFltb_irrefl. Qed.

(** [x <= y] is false when [y < x]. *)
Lemma leb_false_of_ltb (x y : float) :
  (y <? x)%float = true → (x <=? y)%float = false.
Proof.
  rewrite FloatAxioms.ltb_spec, FloatAxioms.leb_spec. unfold SFltb, SFleb.
  rewrite (SFcompare_antisym (Prim2SF y) (Prim2SF x)).
  by destruct (SFcompare (Prim2SF y) (Prim2SF x)) as [[]|].
Qed.

(** ** [finalizeRequest] *)

Lemma finalizeRequest_known (c : Collector) (requestId : string) (m : Metric)
    (t : float) :
  metrics c !! requestId = Some m →
  finalizeRequest c requestId t =
    (with_metrics c (<[requestId := finalize m t]> (metrics c)),
     Some (finalize m t)).
Proof. intros Hm. unfold finalizeRequest. by rewrite Hm. Qed.

Lemma finalizeRequest_unknown (c : Collector) (requestId : string) (t : float) :
  metrics c !! requestId = None → finalizeRequest c requestId t = (c, None).
Proof. intros Hm. unfold finalizeRequest. by rewrite Hm. Qed.

Lemma finalize_finalize (m : Metric) (t : float) :
  finalize (finalize m t) t = finalize m t.
Proof. reflexivity. Qed.

(** C1, as amended: for a captured request, [finalizeRequest] returns the
    stored metric with [endTime] set, and every breakdown value (dns, tcp,
    ssl, ttfb, download, total) is its timestamp difference passed through
    [|| 0]: the difference itself whenever that is a Number other than
    [NaN], be it negative or infinite, and [0] when it is [NaN]. *)
Theorem finalizeRequest_breakdown (c : Collector) (requestId : string)
    (m : Metric) (t : float) :
  metrics c !! requestId = Some m →
  ∃ r dns' tcp' ssl' ttfb' download',
    (finalizeRequest c requestId t).2 = Some r ∧
    endTime r = t ∧
    dns r = Some dns' ∧ tcp r = Some tcp' ∧ ssl r = Some ssl' ∧
    ttfb r = Some ttfb' ∧ download r = Some download' ∧
    breakdown_of (dnsEnd m - dnsStart m)%float dns' ∧
    breakdown_of (connectEnd m - connectStart m - (sslEnd m - sslStart m))%float tcp' ∧
    breakdown_of (sslEnd m - sslStart m)%float ssl' ∧
    breakdown_of (receiveStart m - sendEnd m)%float ttfb' ∧
    breakdown_of (receiveEnd m - receiveStart m)%float download' ∧
    breakdown_of (t - startTime m)%float (total r).
Proof.
  intros Hm. rewrite (finalizeRequest_known _ _ _ _ Hm). simpl.
  eexists _, _, _, _, _, _.
  repeat (split; [reflexivity|]).
  repeat split; apply or_zero_breakdown.
Qed.

(** The "Finalize Request" test: req1 captured at 1000, the full timing
    object, finalized at 1450. *)
Lemma finalizeRequest_breakdown_witness :
  ∃ r dns' tcp' ssl' ttfb' download',
    (finalizeRequest timed "req1" 1450).2 = Some r ∧
    endTime r = 1450%float ∧
    dns r = Some dns' ∧ tcp r = Some tcp' ∧ ssl r = Some ssl' ∧
    ttfb r = Some ttfb' ∧ download r = Some download' ∧
    breakdown_of (1050 - 1000)%float dns' ∧
    breakdown_of (1150 - 1050 - (1150 - 1100))%float tcp' ∧
    breakdown_of (1150 - 1100)%float ssl' ∧
    breakdown_of (1350 - 1150)%float ttfb' ∧
    breakdown_of (1450 - 1350)%float download' ∧
    breakdown_of (1450 - 1000)%float (total r).
Proof.
  refine (finalizeRequest_breakdown timed "req1" timed_metric 1450%float _).
  vm_compute. reflexivity.
Defined.

(** The expectations of "should calculate timing breakdowns" and "should
    set end time". *)
Lemma finalizeRequest_timed :
  (finalizeRequest timed "req1" 1450).2 =
    Some {| startTime := 1000;
            dnsStart := 1000; dnsEnd := 1050;
            connectStart := 1050; connectEnd := 1150;
            sslStart := 1100; sslEnd := 1150;
            sendStart := 0; sendEnd := 1150;
            receiveStart := 1350; receiveEnd := 1450;
            endTime := 1450; total := 450;
            dns := Some 50%float; tcp := Some 50%float; ssl := Some 50%float;
            ttfb := Some 200%float; download := Some 100%float |}.
Proof. vm_compute. reflexivity. Qed.

(** C1 as stated fails: req1 is captured at 1000 and finalized at 500; the
    returned total is the difference -500, a negative Number, where the
    claim has 0.  Finalized at [Infinity] the total is [Infinity], where the
    claim has 0 again.  Likewise dns is -100 after an update that has only
    dnsStart. *)
Lemma finalizeRequest_negative_breakdown :
  getMetrics started "req1" = Some (initial 1000) ∧
  total <$> (finalizeRequest started "req1" 500).2 = Some (-500)%float ∧
  (-500 <? 0)%float = true ∧
  total <$> (finalizeRequest started "req1" infinity).2 = Some infinity ∧
  (c ← updateRequestTiming started "req1" (Object {[ "dnsStart" := 100%float ]});
   mret ((finalizeRequest c "req1" 1450).2 ≫= dns))
    = Normal (Some (-100)%float).
Proof. vm_compute. repeat split. Qed.

(** C9: for a captured request, a second [finalizeRequest] with the same
    [endTime] returns a metric equal to the first one and leaves the
    collector as the first call left it; the metric is returned, and
    [getMetrics] still returns it after the calls. *)
Theorem finalizeRequest_idempotent (c : Collector) (requestId : string)
    (m : Metric) (t : float) :
  metrics c !! requestId = Some m →
  let first := finalizeRequest c requestId t in
  let second := finalizeRequest first.1 requestId t in
  second.2 = first.2 ∧
  second.1 = first.1 ∧
  is_Some first.2 ∧
  getMetrics first.1 requestId = first.2 ∧
  getMetrics second.1 requestId = second.2.
Proof.
  intros Hm first second. subst first second.
  rewrite (finalizeRequest_known _ _ _ _ Hm). simpl.
  rewrite (finalizeRequest_known _ requestId (finalize m t) t)
    by (simpl; apply lookup_insert_eq).
  simpl. rewrite insert_insert_eq, finalize_finalize.
  unfold getMetrics. simpl. rewrite lookup_insert_eq. eauto.
Qed.

Lemma finalizeRequest_idempotent_witness :
  let first := finalizeRequest resolved "req1" 1450 in
  let second := finalizeRequest first.1 "req1" 1450 in
  second.2 = first.2 ∧
  second.1 = first.1 ∧
  is_Some first.2 ∧
  getMetrics first.1 "req1" = first.2 ∧
  getMetrics second.1 "req1" = second.2.
Proof.
  eapply (finalizeRequest_idempotent resolved "req1" _ 1450%float).
  vm_compute. reflexivity.
Defined.

(** ** [updateRequestTiming] *)

Lemma updateRequestTiming_unknown (c : Collector) (requestId : string)
    (timing : value) :
  metrics c !! requestId = None →
  updateRequestTiming c requestId timing = Normal c.
Proof. intros Hm. unfold updateRequestTiming. by rewrite Hm. Qed.

Lemma updateRequestTiming_falsy (c : Collector) (requestId : string)
    (timing : value) :
  to_boolean timing = false →
  updateRequestTiming c requestId timing = Normal c.
Proof.
  intros Hf. unfold updateRequestTiming.
  destruct (metrics c !! requestId); [|done]. by rewrite Hf.
Qed.

Lemma assign_timing_truthy (metric : Metric) (timing : value) :
  to_boolean timing = true → ∃ metric', assign_timing metric timing = Normal metric'.
Proof. destruct timing; simpl; intros Ht; try discriminate; eauto. Qed.

Lemma updateRequestTiming_total (c : Collector) (requestId : string)
    (timing : value) :
  ∃ c', updateRequestTiming c requestId timing = Normal c'.
Proof.
  unfold updateRequestTiming.
  destruct (metrics c !! requestId) as [metric|]; [|by eexists].
  destruct (to_boolean timing) eqn:Ht; [|by eexists].
  destruct (assign_timing_truthy metric timing Ht) as [metric' ->].
  by eexists.
Qed.

Lemma updateRequestTiming_started :
  updateRequestTiming started "req1"
    (Object {[ "dnsStart" := 100%float; "dnsEnd" := 150%float ]}) = Normal resolved ∧
  updateRequestTiming started "req1" (Object full_timing) = Normal timed.
Proof. vm_compute. done. Qed.

(** C2, as amended: for a known request and a timing object,
    [updateRequestTiming] does not throw and writes all ten phase
    timestamps of the stored metric: a phase takes the object's value when
    the object has a truthy one, and is reset to 0 when the object has none
    (or a falsy one).  [startTime], [endTime], [total], the breakdown values
    and the other requests are left as they were.  For an unknown request
    the call changes nothing and does not throw, whatever the argument. *)
Theorem updateRequestTiming_overwrites (c : Collector) (requestId : string)
    (m : Metric) (props : gmap string float) :
  metrics c !! requestId = Some m →
  (∃ m',
     updateRequestTiming c requestId (Object props)
       = Normal (with_metrics c (<[requestId := m']> (metrics c))) ∧
     (∀ p, phase_of p m' =
             match props !! phase_name p with
             | Some v => if truthy v then v else 0%float
             | None => 0%float
             end) ∧
     startTime m' = startTime m ∧ endTime m' = endTime m ∧
     total m' = total m ∧
     dns m' = dns m ∧ tcp m' = tcp m ∧ ssl m' = ssl m ∧
     ttfb m' = ttfb m ∧ download m' = download m) ∧
  (∀ other timing,
     metrics c !! other = None →
     updateRequestTiming c other timing = Normal c).
Proof.
  intros Hm. split; [|intros; by apply updateRequestTiming_unknown].
  unfold updateRequestTiming. rewrite Hm. simpl.
  eexists. split; [reflexivity|]. simpl.
  split; [|done].
  intros p. destruct p; simpl; apply or_zero_prop_cases.
Qed.

Lemma updateRequestTiming_overwrites_witness :
  (∃ m',
     updateRequestTiming resolved "req1" (Object {[ "connectStart" := 150%float ]})
       = Normal (with_metrics resolved (<["req1" := m']> (metrics resolved))) ∧
     (∀ p, phase_of p m' =
             match ({[ "connectStart" := 150%float ]} : gmap string float)
                     !! phase_name p with
             | Some v => if truthy v then v else 0%float
             | None => 0%float
             end) ∧
     startTime m' = 1000%float ∧ endTime m' = 0%float ∧
     total m' = 0%float ∧
     dns m' = None ∧ tcp m' = None ∧ ssl m' = None ∧
     ttfb m' = None ∧ download m' = None) ∧
  (∀ other timing,
     metrics resolved !! other = None →
     updateRequestTiming resolved other timing = Normal resolved).
Proof.
  refine (updateRequestTiming_overwrites resolved "req1" resolved_metric
            {[ "connectStart" := 150%float ]} _).
  vm_compute. reflexivity.
Defined.

(** C2 as stated fails: req1 has dnsStart 100 and dnsEnd 150; an update
    that has connectStart only does not throw and leaves dnsStart and
    dnsEnd at 0, where the claim leaves them unchanged. *)
Lemma updateRequestTiming_resets_absent :
  dnsStart <$> getMetrics resolved "req1" = Some 100%float ∧
  dnsEnd <$> getMetrics resolved "req1" = Some 150%float ∧
  ({[ "connectStart" := 150%float ]} : gmap string float) !! "dnsStart" = None ∧
  ({[ "connectStart" := 150%float ]} : gmap string float) !! "dnsEnd" = None ∧
  (c ← updateRequestTiming resolved "req1" (Object {[ "connectStart" := 150%float ]});
   mret (dnsStart <$> getMetrics c "req1", dnsEnd <$> getMetrics c "req1"))
    = Normal (Some 0%float, Some 0%float).
Proof. vm_compute. done. Qed.

(** C10: for a known request, [updateRequestTiming] with [null] or
    [undefined] returns normally and leaves the collector, hence the stored
    metric, as it was; and for every request id and every argument the
    call returns normally. *)
Theorem updateRequestTiming_null_safe (c : Collector) (requestId : string)
    (m : Metric) :
  metrics c !! requestId = Some m →
  updateRequestTiming c requestId Null = Normal c ∧
  updateRequestTiming c requestId Undefined = Normal c ∧
  getMetrics c requestId = Some m ∧
  (∀ other timing, ∃ c', updateRequestTiming c other timing = Normal c').
Proof.
  intros Hm. repeat split.
  - by apply updateRequestTiming_falsy.
  - by apply updateRequestTiming_falsy.
  - exact Hm.
  - intros. apply updateRequestTiming_total.
Qed.

Lemma updateRequestTiming_null_safe_witness :
  updateRequestTiming resolved "req1" Null = Normal resolved ∧
  updateRequestTiming resolved "req1" Undefined = Normal resolved ∧
  getMetrics resolved "req1" = Some resolved_metric ∧
  (∀ other timing, ∃ c', updateRequestTiming resolved other timing = Normal c').
Proof.
  refine (updateRequestTiming_null_safe resolved "req1" resolved_metric _).
  vm_compute. reflexivity.
Defined.

(** ** [captureRequestStart] *)

Lemma captureRequestStart_sampled (c : Collector) (requestId : string)
    (timestamp random : float) :
  shouldCapture c random = true →
  captureRequestStart c requestId timestamp random =
    with_metrics c (<[requestId := initial timestamp]> (metrics c)).
Proof. intros Hs. unfold captureRequestStart. by rewrite Hs. Qed.

Lemma captureRequestStart_skipped (c : Collector) (requestId : string)
    (timestamp random : float) :
  shouldCapture c random = false →
  captureRequestStart c requestId timestamp random = c.
Proof. intros Hs. unfold captureRequestStart. by rewrite Hs. Qed.

(** C8: for a request already in the collector, a second
    [captureRequestStart] that passes the sampling gate replaces the stored
    metric: [startTime] is the new timestamp, the ten phase timestamps,
    [endTime] and [total] are 0, and the breakdown values of an earlier
    [finalizeRequest] are gone. *)
Theorem captureRequestStart_replaces (c : Collector) (requestId : string)
    (m : Metric) (t2 random : float) :
  metrics c !! requestId = Some m →
  shouldCapture c random = true →
  ∃ m',
    getMetrics (captureRequestStart c requestId t2 random) requestId = Some m' ∧
    startTime m' = t2 ∧
    (∀ p, phase_of p m' = 0%float) ∧
    endTime m' = 0%float ∧ total m' = 0%float ∧
    dns m' = None ∧ tcp m' = None ∧ ssl m' = None ∧
    ttfb m' = None ∧ download m' = None.
Proof.
  intros _ Hs. rewrite captureRequestStart_sampled by done.
  exists (initial t2). unfold getMetrics. simpl.
  rewrite lookup_insert_eq. repeat split. by intros [].
Qed.

Lemma captureRequestStart_replaces_witness :
  ∃ m',
    getMetrics
      (captureRequestStart (finalizeRequest timed "req1" 1450).1 "req1" 2000 0.25)
      "req1" = Some m' ∧
    startTime m' = 2000%float ∧
    (∀ p, phase_of p m' = 0%float) ∧
    endTime m' = 0%float ∧ total m' = 0%float ∧
    dns m' = None ∧ tcp m' = None ∧ ssl m' = None ∧
    ttfb m' = None ∧ download m' = None.
Proof.
  eapply (captureRequestStart_replaces _ "req1" _ 2000%float 0.25%float).
  - vm_compute. reflexivity.
  - vm_compute. reflexivity.
Defined.

(** The sampling gate at rate 0 rejects every draw above 0. *)
Lemma shouldCapture_rate_zero_positive (c : Collector) (random : float) :
  samplingRate c = 0%float →
  (0 <? random * 100)%float = true →
  shouldCapture c random = false.
Proof.
  intros Hr Hpos. unfold shouldCapture. rewrite Hr.
  rewrite (leb_false_of_ltb _ _ Hpos). apply andb_false_r.
Qed.

(** C4 at the draw the claim misses: [Math.random()] may return 0, and
    0 * 100 <= 0 passes the gate of a collector with sampling rate 0.
    Whatever the request id and the timestamp, the request is then stored,
    [finalizeRequest] returns its metric and [getMetrics] finds it. *)
Theorem captureRequestStart_rate_zero_draw_zero (requestId : string)
    (timestamp : float) :
  let c := captureRequestStart lowSampleCollector requestId timestamp 0 in
  let finalized := finalizeRequest c requestId timestamp in
  shouldCapture lowSampleCollector 0 = true ∧
  size (metrics c) = 1 ∧
  finalized.2 = Some (finalize (initial timestamp) timestamp) ∧
  getMetrics finalized.1 requestId = Some (finalize (initial timestamp) timestamp).
Proof.
  assert (Hs : shouldCapture lowSampleCollector 0 = true) by (vm_compute; done).
  intros c finalized. subst c finalized.
  rewrite (captureRequestStart_sampled _ _ _ _ Hs).
  rewrite (finalizeRequest_known _ requestId (initial timestamp))
    by (simpl; apply lookup_insert_eq).
  unfold getMetrics. simpl. rewrite lookup_insert_eq.
  repeat split. by rewrite insert_empty, map_size_singleton.
Qed.

(** ** [cleanupOldMetrics] *)

Section Cleanup.
Variable c : Collector.
Variable now : float.

(** The loop, started from any map [acc], deletes from it the keys of the
    expired entries of [ms] and nothing else. *)
Lemma cleanup_fold_lookup (acc ms : gmap string Metric) (requestId : string) :
  map_fold (λ k metric r, if expired c now metric then delete k r else r)
           acc ms !! requestId =
    match ms !! requestId with
    | Some metric => if expired c now metric then None else acc !! requestId
    | None => acc !! requestId
    end.
Proof.
  revert requestId.
  apply (map_fold_weak_ind (λ r m, ∀ k,
    r !! k = match m !! k with
             | Some metric => if expired c now metric then None else acc !! k
             | None => acc !! k
             end)).
  - intros k. by rewrite lookup_empty.
  - intros i x m r Hi IH k. destruct (decide (i = k)) as [->|Hne].
    + rewrite lookup_insert_eq. destruct (expired c now x).
      * apply lookup_delete_eq.
      * by rewrite IH, Hi.
    + rewrite lookup_insert_ne by done. rewrite <- IH.
      destruct (expired c now x); [by apply lookup_delete_ne|done].
Qed.

(** What [cleanupOldMetrics] leaves of each entry. *)
Lemma cleanupOldMetrics_lookup (requestId : string) :
  getMetrics (cleanupOldMetrics c now) requestId =
    match getMetrics c requestId with
    | Some metric => if expired c now metric then None else Some metric
    | None => None
    end.
Proof.
  unfold getMetrics, cleanupOldMetrics. simpl. rewrite cleanup_fold_lookup.
  by destruct (metrics c !! requestId) as [metric|] eqn:Hm.
Qed.

(** An entry goes exactly when [now - endTime > retentionPeriod]. *)
Lemma cleanupOldMetrics_removes_iff (requestId : string) (m : Metric) :
  getMetrics c requestId = Some m →
  getMetrics (cleanupOldMetrics c now) requestId = None ↔
  gt (now - endTime m)%float (retentionPeriod c) = true.
Proof.
  intros Hm. rewrite cleanupOldMetrics_lookup, Hm. unfold expired.
  by destruct (gt _ _).
Qed.

(** An entry whose age is the retention period itself stays. *)
Lemma cleanupOldMetrics_boundary (requestId : string) (m : Metric) :
  getMetrics c requestId = Some m →
  (now - endTime m)%float = retentionPeriod c →
  getMetrics (cleanupOldMetrics c now) requestId = Some m.
Proof.
  intros Hm Hage. rewrite cleanupOldMetrics_lookup, Hm. unfold expired.
  by rewrite Hage, gt_irrefl.
Qed.

(** The sweep changes the map only. *)
Lemma cleanupOldMetrics_config :
  enabled (cleanupOldMetrics c now) = enabled c ∧
  samplingRate (cleanupOldMetrics c now) = samplingRate c ∧
  retentionPeriod (cleanupOldMetrics c now) = retentionPeriod c.
Proof. done. Qed.

End Cleanup.

(** "should keep recent metrics": captured and finalized now, swept now. *)
Lemma cleanupOldMetrics_keeps_recent :
  let c := captureRequestStart (new true 100 week) "req1" today 0.5 in
  let c' := (finalizeRequest c "req1" today).1 in
  is_Some (getMetrics (cleanupOldMetrics c' today) "req1").
Proof. vm_compute. by eexists. Qed.

(** C3 on the suite's own scenario: recent-req is captured today and never
    finalized, so its [endTime] is the 0 of the object literal, and
    [cleanupOldMetrics] run the same day removes it together with old-req:
    today - 0 is above the retention period of a week.  The test expects
    recent-req to be still there. *)
Theorem cleanupOldMetrics_removes_unfinalized :
  getMetrics before_cleanup "recent-req" = Some (initial today) ∧
  endTime (initial today) = 0%float ∧
  expired before_cleanup today (initial today) = true ∧
  getMetrics (cleanupOldMetrics before_cleanup today) "old-req" = None ∧
  getMetrics (cleanupOldMetrics before_cleanup today) "recent-req" = None.
Proof. vm_compute. done. Qed.

End CollectorSpec.

(** * Properties of the aggregation *)
Module GoldSpec.
Import Gold.

Lemma increments_agree (rs : list Stats.Request) (f : GoldFact) :
  totalRequests (foldl increment f rs) = totalRequests f + Stats.totalRequests rs ∧
  successCount (foldl increment f rs) = successCount f + Stats.successfulRequests rs ∧
  sumResponseTime (foldl increment f rs) =
    foldl (λ sum r, (sum + Stats.responseTime r)%float) (sumResponseTime f) rs.
Proof.
  revert f. induction rs as [|r rs IH]; intros f; simpl.
  - unfold Stats.totalRequests, Stats.successfulRequests. simpl. by rewrite !Nat.add_0_r.
  - destruct (IH (increment f r)) as (Ht & Hs & Hsum).
    rewrite Ht, Hs, Hsum. unfold Stats.totalRequests, Stats.successfulRequests.
    simpl. destruct (Stats.successful r); simpl; repeat split; lia.
Qed.

(** A row built by increments from nothing has the source's statistics. *)
Lemma increments_from_empty (rs : list Stats.Request) :
  totalRequests (foldl increment empty_fact rs) = Stats.totalRequests rs ∧
  successCount (foldl increment empty_fact rs) = Stats.successfulRequests rs ∧
  avgResponseTime (foldl increment empty_fact rs) = Stats.avgResponseTime rs.
Proof.
  destruct (increments_agree rs empty_fact) as (Ht & Hs & Hsum).
  unfold avgResponseTime, Stats.avgResponseTime, Stats.totalTime.
  rewrite Ht, Hs, Hsum. done.
Qed.

(** Deltas of one domain and one day touch the row of that key only, and
    increment it record by record. *)
Lemma applyDelta_row (k d : nat) (rs : list Stats.Request)
    (facts : gmap (nat * nat) GoldFact) :
  rs ≠ [] →
  foldl applyDelta facts
    ((λ r, {| domainKey := k; timeBucket := d; request := r |}) <$> rs)
    !! (k, d)
  = Some (foldl increment (default empty_fact (facts !! (k, d))) rs).
Proof.
  revert facts. induction rs as [|r rs IH]; intros facts Hne; [done|].
  simpl. destruct rs as [|r' rs].
  - simpl. unfold applyDelta. simpl. apply lookup_insert_eq.
  - rewrite IH by done. unfold applyDelta. simpl.
    by rewrite lookup_insert_eq.
Qed.

(** C5: the three requests of example.com, statuses 200, 200, 404 and
    response times 100, 200, 150, give a row with totalRequests 3,
    successCount 2, errorCount 1 and average 150, whatever the key of the
    domain and the day; the average is the quotient of the row's sum and
    count; and the counts and the average are the ones the source computes
    from the list, where one request is not a success. *)
Theorem gold_fact_of_sample (k d : nat) :
  ∃ f,
    foldl applyDelta ∅ (sample k d) !! (k, d) = Some f ∧
    totalRequests f = 3 ∧ successCount f = 2 ∧ errorCount f = 1 ∧
    sumResponseTime f = 450%float ∧
    avgResponseTime f = 150%float ∧
    avgResponseTime f = (sumResponseTime f / Js.of_nat (totalRequests f))%float ∧
    Stats.totalRequests Stats.sample = 3 ∧
    Stats.successfulRequests Stats.sample = 2 ∧
    Stats.totalRequests Stats.sample - Stats.successfulRequests Stats.sample = 1 ∧
    Stats.avgResponseTime Stats.sample = 150%float.
Proof.
  eexists. split.
  - unfold sample. by apply applyDelta_row.
  - rewrite lookup_empty. vm_compute. done.
Qed.

End GoldSpec.

(** * Properties of the capture filter *)
Module CaptureFilterSpec.
Import CaptureFilter.

Lemma includes_elem_of (array : list string) (x : string) :
  includes array x = true ↔ x ∈ array.
Proof.
  induction array as [|y rest IH]; simpl.
  - split; [done|]. by intros ?%elem_of_nil.
  - rewrite elem_of_cons. destruct (String.eqb y x) eqn:Hyx.
    + apply String.eqb_eq in Hyx. split; [by left|done].
    + apply String.eqb_neq in Hyx. rewrite IH.
      split; [by right|]. by intros [->|?].
Qed.

Lemma includes_not_elem_of (array : list string) (x : string) :
  includes array x = false ↔ x ∉ array.
Proof.
  rewrite <- includes_elem_of. by destruct (includes array x).
Qed.

Lemma is_empty_nil (array : list string) : is_empty array = true ↔ array = [].
Proof. by destruct array. Qed.

(** C6: the capture decision is true exactly when the domain is not in
    excludeDomains, includeDomains is empty or has the domain, the type is
    not in excludeTypes, and includeTypes is empty or has the type; a
    domain or a type that is in both its include and its exclude list is
    denied. *)
Theorem allowed_iff (f : Filters) (r : Request) :
  (allowed f r = true ↔
     (domain r ∉ excludeDomains f) ∧
     (includeDomains f = [] ∨ domain r ∈ includeDomains f) ∧
     (type r ∉ excludeTypes f) ∧
     (includeTypes f = [] ∨ type r ∈ includeTypes f)) ∧
  ((domain r ∈ includeDomains f ∧ domain r ∈ excludeDomains f) ∨
   (type r ∈ includeTypes f ∧ type r ∈ excludeTypes f) →
   allowed f r = false).
Proof.
  assert (Hiff : allowed f r = true ↔
     (domain r ∉ excludeDomains f) ∧
     (includeDomains f = [] ∨ domain r ∈ includeDomains f) ∧
     (type r ∉ excludeTypes f) ∧
     (includeTypes f = [] ∨ type r ∈ includeTypes f)).
  { unfold allowed.
    rewrite !andb_true_iff, !orb_true_iff, !negb_true_iff.
    rewrite !includes_not_elem_of, !includes_elem_of, !is_empty_nil.
    tauto. }
  split; [exact Hiff|].
  intros Hboth. apply not_true_is_false. rewrite Hiff. tauto.
Qed.

End CaptureFilterSpec.

(** * Properties of the bronze store *)
Module BronzeStoreSpec.
Import BronzeStore.

Lemma elem_of_existingIds (store : list BronzeRecord) (i : string) :
  i ∈ existingIds store ↔ i ∈ id <$> store.
Proof. unfold existingIds. apply elem_of_list_to_set. Qed.

Lemma skipDuplicates_known (store : list BronzeRecord) (record : BronzeRecord) :
  id record ∈ id <$> store → skipDuplicates store [record] = [].
Proof.
  intros Hin. unfold skipDuplicates. simpl.
  rewrite bool_decide_eq_true_2; [done|]. by apply elem_of_existingIds.
Qed.

Lemma skipDuplicates_fresh (store : list BronzeRecord) (record : BronzeRecord) :
  id record ∉ id <$> store → skipDuplicates store [record] = [record].
Proof.
  intros Hin. unfold skipDuplicates. simpl.
  rewrite bool_decide_eq_false_2; [done|]. by rewrite elem_of_existingIds.
Qed.

(** The uniqueness of ids holds of the empty store and is kept by every
    insert. *)
Lemma unique_ids_nil : unique_ids [].
Proof. constructor. Qed.

(** What [insert] does with a record whose id is not stored: the row is
    appended when the storage layer works, and the failure of the layer
    surfaces with the store as it was. *)
Lemma insert_fresh (fault : bool) (store : list BronzeRecord) (record : BronzeRecord) :
  id record ∉ id <$> store →
  insert fault store record =
    if fault then (StorageError, store) else (Success, store ++ [record]).
Proof.
  intros Hin. unfold insert, run. rewrite skipDuplicates_fresh by done.
  destruct fault; [done|].
  rewrite bool_decide_eq_false_2; [done|]. by rewrite elem_of_existingIds.
Qed.

Lemma insert_known (fault : bool) (store : list BronzeRecord) (record : BronzeRecord) :
  id record ∈ id <$> store → insert fault store record = (Success, store).
Proof. intros Hin. unfold insert. by rewrite skipDuplicates_known. Qed.

Lemma insert_unique_ids (fault : bool) (store : list BronzeRecord)
    (record : BronzeRecord) :
  unique_ids store → unique_ids (insert fault store record).2.
Proof.
  unfold unique_ids. intros Hnd.
  destruct (decide (id record ∈ id <$> store)) as [Hin|Hin].
  - by rewrite insert_known.
  - rewrite insert_fresh by done. destruct fault; [done|]. cbn [snd].
    rewrite fmap_app. simpl.
    apply NoDup_app. split; [done|]. split.
    + intros i Hi ->%list_elem_of_singleton. done.
    + apply NoDup_singleton.
Qed.

Lemma rows_absent (store : list BronzeRecord) (i : string) :
  i ∉ id <$> store → rows store i = [].
Proof.
  induction store as [|r store IH]; [done|].
  rewrite fmap_cons, not_elem_of_cons. intros [Hne Hin].
  unfold rows in *. simpl.
  destruct (String.eqb (id r) i) eqn:Hri.
  - apply String.eqb_eq in Hri. congruence.
  - by apply IH.
Qed.

Lemma rows_unique (store : list BronzeRecord) (i : string) :
  unique_ids store → i ∈ id <$> store →
  ∃ stored, stored ∈ store ∧ id stored = i ∧ rows store i = [stored].
Proof.
  unfold unique_ids. induction store as [|r store IH]; simpl.
  - by intros _ ?%elem_of_nil.
  - rewrite NoDup_cons, elem_of_cons. intros [Hr Hnd] Hin.
    unfold rows in *. simpl.
    destruct (String.eqb (id r) i) eqn:Hri.
    + apply String.eqb_eq in Hri. subst i. exists r.
      split; [apply list_elem_of_here|]. split; [done|].
      f_equal. by apply rows_absent.
    + apply String.eqb_neq in Hri.
      destruct Hin as [->|Hin]; [done|].
      destruct (IH Hnd Hin) as (stored & Hs & Hid & Hrows).
      exists stored. split; [by apply list_elem_of_further|]. done.
Qed.

(** An insert that succeeded, made again, succeeds and changes nothing,
    whether or not the storage layer works the second time. *)
Lemma insert_insert (fault fault' : bool) (store : list BronzeRecord)
    (record : BronzeRecord) :
  (insert fault store record).1 = Success →
  insert fault' (insert fault store record).2 record
  = (Success, (insert fault store record).2).
Proof.
  intros Hok. apply insert_known.
  destruct (decide (id record ∈ id <$> store)) as [Hin|Hin].
  - by rewrite insert_known.
  - rewrite insert_fresh in * by done. destruct fault; [done|]. cbn [snd].
    rewrite fmap_app, elem_of_app. right. apply list_elem_of_here.
Qed.

(** The statement of the storage layer, run on a row whose id is in the
    table, throws. *)
Lemma run_duplicate (fault : bool) (table : list BronzeRecord)
    (record : BronzeRecord) :
  id record ∈ id <$> table →
  run fault table record =
    Throws (if fault then LayerFailure else UniqueConstraintFailed).
Proof.
  intros Hin. unfold run. destruct fault; [done|].
  rewrite bool_decide_eq_true_2; [done|]. by apply elem_of_existingIds.
Qed.

(** C7: in a store with unique ids, the insert of a record whose id is
    already there reports success and leaves the store as it was, whether
    or not the storage layer works: the id has exactly one row, and that
    row is the record stored before, not the one passed to the insert.
    The statement of the storage layer, run on the same record, throws;
    [insert] raises nothing of it to the caller. *)
Theorem insert_duplicate (fault : bool) (store : list BronzeRecord)
    (record : BronzeRecord) :
  unique_ids store →
  id record ∈ id <$> store →
  insert fault store record = (Success, store) ∧
  length (rows (insert fault store record).2 (id record)) = 1 ∧
  (∃ stored,
     stored ∈ store ∧ id stored = id record ∧
     rows (insert fault store record).2 (id record) = [stored]) ∧
  ∃ e, run fault store record = Throws e.
Proof.
  intros Hnd Hin. rewrite (insert_known fault store record Hin). cbn [snd].
  destruct (rows_unique store (id record) Hnd Hin) as (stored & Hs & Hid & Hrows).
  rewrite Hrows. split; [done|]. split; [done|].
  split; [by exists stored|]. rewrite run_duplicate by done. by eexists.
Qed.

(** A store that has req-0 is given another record of that id, while the
    storage layer fails. *)
Lemma insert_duplicate_witness :
  let stored :=
    {| id := "req-0"; url := "https://api.example.com/test-0"; method := "GET";
       domain := "example.com"; status := 200; responseTime := 234;
       timestamp := 1000; rawHeaders := [] |} in
  let record :=
    {| id := "req-0"; url := "https://api.example.com/other"; method := "POST";
       domain := "example.com"; status := 404; responseTime := 150;
       timestamp := 2000; rawHeaders := [] |} in
  insert true [stored] record = (Success, [stored]) ∧
  length (rows (insert true [stored] record).2 "req-0") = 1 ∧
  (∃ stored',
     stored' ∈ [stored] ∧ id stored' = "req-0" ∧
     rows (insert true [stored] record).2 "req-0" = [stored']) ∧
  ∃ e, run true [stored] record = Throws e.
Proof.
  intros stored record.
  refine (insert_duplicate true [stored] record _ _).
  - apply NoDup_singleton.
  - apply list_elem_of_here.
Defined.

(** The outcomes of [insert] on the empty store: a failing storage layer
    gives [StorageError] and stores nothing, a working one stores the
    record. *)
Lemma insert_outcomes (record : BronzeRecord) :
  insert true [] record = (StorageError, []) ∧
  insert false [] record = (Success, [record]).
Proof.
  split; rewrite insert_fresh; try done; by intros ?%elem_of_nil.
Qed.

End BronzeStoreSpec.

(** * Properties of sequences of calls on a collector *)
Module SessionSpec.
Import Js Collector Session.

Lemma or_zero_not_nan (x : float) : PrimFloat.is_nan (or_zero x) = false.
Proof.
  unfold or_zero, truthy.
  destruct (PrimFloat.is_nan x) eqn:Hnan; [done|].
  by destruct (PrimFloat.is_zero x).
Qed.

Lemma or_zero_prop_not_nan (x : option float) :
  PrimFloat.is_nan (or_zero_prop x) = false.
Proof. destruct x; [apply or_zero_not_nan|done]. Qed.

Lemma nan_free_initial (timestamp : float) : nan_free (initial timestamp).
Proof.
  split; [by intros []|]. by repeat split.
Qed.

Lemma nan_free_finalize (m : Metric) (t : float) :
  (∀ p, PrimFloat.is_nan (phase_of p m) = false) → nan_free (finalize m t).
Proof.
  intros Hp. split; [intros p; specialize (Hp p); by destruct p|].
  split; [apply or_zero_not_nan|].
  repeat split; simpl; intros x [= <-]; apply or_zero_not_nan.
Qed.

(** [assign_timing] reads the metric for the fields it keeps only. *)
Lemma assign_timing_keeps (m m' : Metric) (timing : value) :
  assign_timing m timing = Normal m' →
  startTime m' = startTime m ∧ endTime m' = endTime m ∧ total m' = total m ∧
  dns m' = dns m ∧ tcp m' = tcp m ∧ ssl m' = ssl m ∧
  ttfb m' = ttfb m ∧ download m' = download m ∧
  ∀ p, PrimFloat.is_nan (phase_of p m') = false.
Proof.
  destruct timing; simpl; intros Hm; try discriminate;
    injection Hm as <-; simpl; repeat split;
    intros p; destruct p; simpl; try done; apply or_zero_prop_not_nan.
Qed.

Lemma assign_timing_ext (m1 m2 : Metric) (timing : value) :
  startTime m1 = startTime m2 → endTime m1 = endTime m2 → total m1 = total m2 →
  dns m1 = dns m2 → tcp m1 = tcp m2 → ssl m1 = ssl m2 →
  ttfb m1 = ttfb m2 → download m1 = download m2 →
  assign_timing m1 timing = assign_timing m2 timing.
Proof.
  destruct m1, m2; simpl; intros; subst. by destruct timing.
Qed.

(** ** One call *)

Lemma step_total (c : Collector) (k : call) : ∃ c', step c k = Normal c'.
Proof.
  destruct k; simpl; try by eexists.
  apply CollectorSpec.updateRequestTiming_total.
Qed.

Lemma run_total (calls : list call) (c : Collector) : ∃ c', run c calls = Normal c'.
Proof.
  revert c. induction calls as [|k calls IH]; intros c; simpl; [by eexists|].
  destruct (step_total c k) as [c' ->]. simpl. apply IH.
Qed.

Lemma run_cons (c c' : Collector) (k : call) (calls : list call) :
  step c k = Normal c' → run c (k :: calls) = run c' calls.
Proof. intros Hk. simpl. by rewrite Hk. Qed.

(** What a call leaves of the entry of a request: the entry as it was, a
    new one, or none. *)
Lemma step_lookup (c c' : Collector) (k : call) (requestId : string) (m' : Metric) :
  step c k = Normal c' →
  metrics c' !! requestId = Some m' →
  metrics c !! requestId = Some m' ∨
  (∃ timestamp random, k = CaptureRequestStart requestId timestamp random ∧
                       m' = initial timestamp) ∨
  (∃ m timing, k = UpdateRequestTiming requestId timing ∧
               metrics c !! requestId = Some m ∧
               assign_timing m timing = Normal m') ∨
  (∃ m endTime, k = FinalizeRequest requestId endTime ∧
                metrics c !! requestId = Some m ∧ m' = finalize m endTime).
Proof.
  destruct k as [id ts random|id timing|id t|now]; simpl.
  - intros [= <-]. unfold captureRequestStart.
    destruct (negb (shouldCapture c random)); [by left|]. simpl.
    destruct (decide (id = requestId)) as [->|Hne].
    + rewrite lookup_insert_eq. intros [= <-]. right. left. eauto.
    + rewrite lookup_insert_ne by done. by left.
  - unfold updateRequestTiming.
    destruct (metrics c !! id) as [m|] eqn:Hm; [|intros [= <-]; by left].
    destruct (to_boolean timing); [|intros [= <-]; by left].
    destruct (assign_timing m timing) as [m1|] eqn:Hm1; [|done]. simpl.
    intros [= <-]. simpl.
    destruct (decide (id = requestId)) as [->|Hne].
    + rewrite lookup_insert_eq. intros [= <-]. right. right. left. eauto.
    + rewrite lookup_insert_ne by done. by left.
  - intros [= <-]. unfold finalizeRequest.
    destruct (metrics c !! id) as [m|] eqn:Hm; [|by left]. simpl.
    destruct (decide (id = requestId)) as [->|Hne].
    + rewrite lookup_insert_eq. intros [= <-]. right. right. right. eauto.
    + rewrite lookup_insert_ne by done. by left.
  - intros [= <-] Hm'. left.
    pose proof (CollectorSpec.cleanupOldMetrics_lookup c now requestId) as Hl.
    unfold getMetrics in Hl. rewrite Hm' in Hl.
    destruct (metrics c !! requestId) as [m|]; [|done].
    by destruct (expired c now m).
Qed.

Lemma step_config (c c' : Collector) (k : call) :
  step c k = Normal c' →
  enabled c' = enabled c ∧ samplingRate c' = samplingRate c ∧
  retentionPeriod c' = retentionPeriod c.
Proof.
  destruct k as [id ts random|id timing|id t|now]; simpl.
  - intros [= <-]. unfold captureRequestStart.
    by destruct (negb (shouldCapture c random)).
  - unfold updateRequestTiming.
    destruct (metrics c !! id) as [m|]; [|by intros [= <-]].
    destruct (to_boolean timing); [|by intros [= <-]].
    destruct (assign_timing m timing); [|done]. by intros [= <-].
  - intros [= <-]. unfold finalizeRequest. by destruct (metrics c !! id).
  - by intros [= <-].
Qed.

(** ** Invariants of a session *)

Lemma step_nan_free (c c' : Collector) (k : call) :
  (∀ requestId m, metrics c !! requestId = Some m → nan_free m) →
  step c k = Normal c' →
  ∀ requestId m, metrics c' !! requestId = Some m → nan_free m.
Proof.
  intros Hc Hk requestId m' Hm'.
  destruct (step_lookup c c' k requestId m' Hk Hm')
    as [Hm|[(ts & random & _ & ->)|[(m & timing & _ & Hm & Ha)|(m & t & _ & Hm & ->)]]].
  - by apply (Hc requestId).
  - apply nan_free_initial.
  - destruct (Hc requestId m Hm) as (_ & Ht & Hdns & Htcp & Hssl & Httfb & Hdl).
    destruct (assign_timing_keeps m m' timing Ha)
      as (_ & _ & Et & Edns & Etcp & Essl & Ettfb & Edl & Hp).
    unfold nan_free. rewrite Et, Edns, Etcp, Essl, Ettfb, Edl.
    by repeat split.
  - apply nan_free_finalize. by destruct (Hc requestId m Hm).
Qed.

Lemma run_nan_free (calls : list call) (c c' : Collector) :
  (∀ requestId m, metrics c !! requestId = Some m → nan_free m) →
  run c calls = Normal c' →
  ∀ requestId m, metrics c' !! requestId = Some m → nan_free m.
Proof.
  revert c. induction calls as [|k calls IH]; intros c Hc; simpl.
  - by intros [= <-].
  - destruct (step c k) as [c1|] eqn:Hk; [|done]. simpl.
    apply IH. by apply (step_nan_free c c1 k).
Qed.

(** Whatever calls a new collector receives, with whatever arguments, the
    metrics it holds never have [NaN] in a phase timestamp, in the total
    or in a breakdown value. *)
Theorem collector_nan_free (on : bool) (rate retention : float)
    (calls : list call) (c : Collector) (requestId : string) (m : Metric) :
  run (new on rate retention) calls = Normal c →
  metrics c !! requestId = Some m →
  nan_free m.
Proof.
  intros Hrun. apply (run_nan_free calls (new on rate retention) c); [|done].
  intros id m0. simpl. by rewrite lookup_empty.
Qed.

Lemma collector_nan_free_witness :
  nan_free (finalize (finalize (initial 1000) nan) nan).
Proof.
  refine (collector_nan_free true 100 week
            [ CaptureRequestStart "req1" 1000 0.5;
              UpdateRequestTiming "req1" (Object {[ "dnsStart" := nan ]});
              FinalizeRequest "req1" nan ]
            _ "req1" _ _ _).
  - vm_compute. reflexivity.
  - vm_compute. reflexivity.
Defined.

(** A disabled collector is left as it was created by every sequence of
    calls: nothing is ever stored in it. *)
Theorem disabled_collector_unchanged (rate retention : float) (calls : list call) :
  run (new false rate retention) calls = Normal (new false rate retention).
Proof.
  induction calls as [|k calls IH]; [done|].
  rewrite (run_cons _ (new false rate retention)); [exact IH|].
  by destruct k as [id ts random|id timing|id t|now].
Qed.

Lemma step_not_captured (c c' : Collector) (k : call) (requestId : string) :
  step c k = Normal c' →
  requestId ∉ captured [k] →
  metrics c !! requestId = None →
  metrics c' !! requestId = None.
Proof.
  intros Hk Hid Hnone.
  destruct (metrics c' !! requestId) as [m'|] eqn:Hm'; [|done].
  destruct (step_lookup c c' k requestId m' Hk Hm')
    as [Hm|[(ts & random & -> & _)|[(m & timing & _ & Hm & _)|(m & t & _ & Hm & _)]]];
    try congruence.
  exfalso. apply Hid. simpl. apply list_elem_of_here.
Qed.

(** Only [captureRequestStart] adds entries: a request that is not in the
    collector and that no call of a sequence captures is not in the
    collector afterwards, whatever updates and finalizations name it. *)
Theorem run_only_capture_adds (calls : list call) (c c' : Collector)
    (requestId : string) :
  run c calls = Normal c' →
  requestId ∉ captured calls →
  getMetrics c requestId = None →
  getMetrics c' requestId = None.
Proof.
  unfold getMetrics. revert c.
  induction calls as [|k calls IH]; intros c; simpl.
  - by intros [= <-].
  - destruct (step c k) as [c1|] eqn:Hk; [|done]. simpl.
    intros Hrun Hid Hnone. apply (IH c1 Hrun).
    + intros Hin. apply Hid. destruct k; simpl; try done.
      by apply list_elem_of_further.
    + apply (step_not_captured c c1 k); [done| |done].
      intros Hin. apply Hid.
      destruct k; simpl in *; try by apply elem_of_nil in Hin.
      apply elem_of_cons in Hin as [->|Hin]; [apply list_elem_of_here|].
      by apply elem_of_nil in Hin.
Qed.

Lemma run_only_capture_adds_witness :
  getMetrics (cleanupOldMetrics
                (finalizeRequest
                   (with_metrics (new true 100 week) {[ "req1" := initial 1000 ]})
                   "req2" 1450).1 2000)
             "req2" = None.
Proof.
  refine (run_only_capture_adds
            [ CaptureRequestStart "req1" 1000 0.5;
              UpdateRequestTiming "req2" (Object full_timing);
              FinalizeRequest "req2" 1450;
              CleanupOldMetrics 2000 ]
            (new true 100 week) _ "req2" _ _ _).
  - vm_compute. reflexivity.
  - simpl. by intros [=]%list_elem_of_singleton.
  - vm_compute. reflexivity.
Defined.

End SessionSpec.

(** * Further properties of the collector's operations *)
Module CollectorLaws.
Import Js Collector.

(** [finalizeRequest] on a known request writes [endTime], [total] and the
    breakdown of that request only: its [startTime] and phase timestamps,
    the entries of the other requests, the configuration and the number of
    entries are as before. *)
Theorem finalizeRequest_frame (c : Collector) (requestId : string) (m : Metric)
    (t : float) :
  metrics c !! requestId = Some m →
  let c' := (finalizeRequest c requestId t).1 in
  (∃ r, getMetrics c' requestId = Some r ∧
        startTime r = startTime m ∧ ∀ p, phase_of p r = phase_of p m) ∧
  (∀ other, other ≠ requestId → getMetrics c' other = getMetrics c other) ∧
  enabled c' = enabled c ∧ samplingRate c' = samplingRate c ∧
  retentionPeriod c' = retentionPeriod c ∧
  size (metrics c') = size (metrics c).
Proof.
  intros Hm c'. subst c'.
  rewrite (CollectorSpec.finalizeRequest_known _ _ _ _ Hm).
  unfold getMetrics. simpl. split.
  - exists (finalize m t). rewrite lookup_insert_eq.
    split; [done|]. split; [done|]. by intros [].
  - split; [intros other Hne; by rewrite lookup_insert_ne|].
    repeat split.
    rewrite <- (insert_id (metrics c) requestId m Hm) at 2.
    rewrite <- (insert_delete_eq (metrics c)) at 1.
    rewrite <- (insert_delete_eq (metrics c) requestId m).
    rewrite !map_size_insert_None by apply lookup_delete_eq. done.
Qed.

Lemma finalizeRequest_frame_witness :
  let c' := (finalizeRequest timed "req1" 1450).1 in
  (∃ r, getMetrics c' "req1" = Some r ∧
        startTime r = 1000%float ∧ ∀ p, phase_of p r = phase_of p timed_metric) ∧
  (∀ other, other ≠ "req1" → getMetrics c' other = getMetrics timed other) ∧
  enabled c' = true ∧ samplingRate c' = 100%float ∧
  retentionPeriod c' = week ∧
  size (metrics c') = size (metrics timed).
Proof.
  refine (finalizeRequest_frame timed "req1" timed_metric 1450 _).
  vm_compute. reflexivity.
Defined.

(** Whatever the stored timestamps and the [endTime], no value that
    [finalizeRequest] computes is [NaN]: the total and the five breakdown
    values of the returned metric are Numbers. *)
Theorem finalizeRequest_never_nan (c : Collector) (requestId : string)
    (t : float) (r : Metric) :
  (finalizeRequest c requestId t).2 = Some r →
  PrimFloat.is_nan (total r) = false ∧
  ∃ dns' tcp' ssl' ttfb' download',
    dns r = Some dns' ∧ tcp r = Some tcp' ∧ ssl r = Some ssl' ∧
    ttfb r = Some ttfb' ∧ download r = Some download' ∧
    PrimFloat.is_nan dns' = false ∧ PrimFloat.is_nan tcp' = false ∧
    PrimFloat.is_nan ssl' = false ∧ PrimFloat.is_nan ttfb' = false ∧
    PrimFloat.is_nan download' = false.
Proof.
  unfold finalizeRequest.
  destruct (metrics c !! requestId) as [m|]; [|done]. simpl.
  intros [= <-]. simpl. split; [apply SessionSpec.or_zero_not_nan|].
  eexists _, _, _, _, _. repeat (split; [reflexivity|]).
  repeat split; apply SessionSpec.or_zero_not_nan.
Qed.

(** A request started at [NaN] with an infinite phase, finalized at
    [Infinity]. *)
Lemma finalizeRequest_never_nan_witness :
  PrimFloat.is_nan (total (finalize (initial nan) infinity)) = false ∧
  ∃ dns' tcp' ssl' ttfb' download',
    dns (finalize (initial nan) infinity) = Some dns' ∧
    tcp (finalize (initial nan) infinity) = Some tcp' ∧
    ssl (finalize (initial nan) infinity) = Some ssl' ∧
    ttfb (finalize (initial nan) infinity) = Some ttfb' ∧
    download (finalize (initial nan) infinity) = Some download' ∧
    PrimFloat.is_nan dns' = false ∧ PrimFloat.is_nan tcp' = false ∧
    PrimFloat.is_nan ssl' = false ∧ PrimFloat.is_nan ttfb' = false ∧
    PrimFloat.is_nan download' = false.
Proof.
  refine (finalizeRequest_never_nan
            (captureRequestStart (new true 100 week) "req1" nan 0.5)
            "req1" infinity _ _).
  vm_compute. reflexivity.
Defined.

(** A later [updateRequestTiming] with a truthy argument erases an earlier
    one: the two calls in a row leave the collector as the later call alone
    does.  In particular the same update twice is the update once. *)
Theorem updateRequestTiming_last_wins (c : Collector) (requestId : string)
    (earlier later : value) :
  to_boolean later = true →
  (c' ← updateRequestTiming c requestId earlier;
   updateRequestTiming c' requestId later)
  = updateRequestTiming c requestId later.
Proof.
  intros Hlater. destruct (metrics c !! requestId) as [m|] eqn:Hm.
  - destruct (to_boolean earlier) eqn:Hearlier.
    + destruct (CollectorSpec.assign_timing_truthy m earlier Hearlier) as [m1 Hm1].
      assert (H1 : updateRequestTiming c requestId earlier =
                   Normal (with_metrics c (<[requestId := m1]> (metrics c)))).
      { unfold updateRequestTiming. by rewrite Hm, Hearlier, Hm1. }
      rewrite H1. simpl. unfold updateRequestTiming. simpl.
      rewrite lookup_insert_eq, Hm, Hlater.
      destruct (SessionSpec.assign_timing_keeps m m1 earlier Hm1)
        as (? & ? & ? & ? & ? & ? & ? & ? & _).
      rewrite (SessionSpec.assign_timing_ext m1 m later) by done.
      destruct (assign_timing m later) as [m2|]; [|done]. simpl.
      by rewrite insert_insert_eq.
    + by rewrite (CollectorSpec.updateRequestTiming_falsy c requestId earlier Hearlier).
  - by rewrite (CollectorSpec.updateRequestTiming_unknown c requestId earlier Hm).
Qed.

Lemma updateRequestTiming_last_wins_witness :
  (c' ← updateRequestTiming started "req1"
          (Object {[ "dnsStart" := 100%float; "dnsEnd" := 150%float ]});
   updateRequestTiming c' "req1" (Object full_timing))
  = updateRequestTiming started "req1" (Object full_timing).
Proof.
  refine (updateRequestTiming_last_wins started "req1" _ (Object full_timing) _).
  reflexivity.
Defined.

(** The scenario of "should remove old metrics": old-req was finalized
    eight days before the sweep. *)
Lemma cleanupOldMetrics_removes_iff_witness :
  getMetrics (cleanupOldMetrics before_cleanup today) "old-req" = None ↔
  gt (today - (today - 8 * 24 * 60 * 60 * 1000))%float week = true.
Proof.
  refine (CollectorSpec.cleanupOldMetrics_removes_iff before_cleanup today "old-req"
            (finalize (initial (today - 8 * 24 * 60 * 60 * 1000))
                      (today - 8 * 24 * 60 * 60 * 1000)) _).
  vm_compute. reflexivity.
Defined.

(** req1 finalized at 1000 and swept exactly a week later. *)
Lemma cleanupOldMetrics_boundary_witness :
  getMetrics (cleanupOldMetrics (finalizeRequest started "req1" 1000).1 604801000)
             "req1"
  = Some (finalize (initial 1000) 1000).
Proof.
  refine (CollectorSpec.cleanupOldMetrics_boundary
            (finalizeRequest started "req1" 1000).1 604801000 "req1"
            (finalize (initial 1000) 1000) _ _).
  - vm_compute. reflexivity.
  - vm_compute. reflexivity.
Defined.

Lemma shouldCapture_rate_zero_positive_witness :
  shouldCapture lowSampleCollector 0.5 = false.
Proof.
  refine (CollectorSpec.shouldCapture_rate_zero_positive lowSampleCollector 0.5 _ _).
  - reflexivity.
  - vm_compute. reflexivity.
Defined.

(** The sweep only removes entries, and a second sweep at the same time
    removes nothing more. *)
Theorem cleanupOldMetrics_idempotent (c : Collector) (now : float) :
  metrics (cleanupOldMetrics c now) ⊆ metrics c ∧
  cleanupOldMetrics (cleanupOldMetrics c now) now = cleanupOldMetrics c now.
Proof.
  split.
  - apply map_subseteq_spec. intros requestId m Hm.
    pose proof (CollectorSpec.cleanupOldMetrics_lookup c now requestId) as Hl.
    unfold getMetrics in Hl. rewrite Hm in Hl.
    destruct (metrics c !! requestId) as [m0|]; [|done].
    by destruct (expired c now m0).
  - assert (Hmaps : metrics (cleanupOldMetrics (cleanupOldMetrics c now) now)
                    = metrics (cleanupOldMetrics c now)).
    { apply map_eq. intros requestId.
      pose proof (CollectorSpec.cleanupOldMetrics_lookup
                    (cleanupOldMetrics c now) now requestId) as Hl2.
      pose proof (CollectorSpec.cleanupOldMetrics_lookup c now requestId) as Hl1.
      unfold getMetrics in *. rewrite Hl2, Hl1.
      destruct (metrics c !! requestId) as [m|]; [|done].
      destruct (expired c now m) eqn:He; [done|].
      change (expired (cleanupOldMetrics c now) now m) with (expired c now m).
      by rewrite He. }
    unfold cleanupOldMetrics at 1. unfold with_metrics. simpl.
    change (map_fold _ _ _) with
      (metrics (cleanupOldMetrics (cleanupOldMetrics c now) now)).
    by rewrite Hmaps.
Qed.

(** A finalized request is swept exactly when the time of the sweep is
    more than the retention period after the [endTime] it was finalized
    with. *)
Theorem finalizeRequest_then_cleanup (c : Collector) (requestId : string)
    (m : Metric) (t now : float) :
  metrics c !! requestId = Some m →
  getMetrics (cleanupOldMetrics (finalizeRequest c requestId t).1 now) requestId
    = None ↔
  gt (now - t)%float (retentionPeriod c) = true.
Proof.
  intros Hm. rewrite (CollectorSpec.finalizeRequest_known _ _ _ _ Hm). simpl.
  rewrite CollectorSpec.cleanupOldMetrics_lookup.
  unfold getMetrics, expired. simpl. rewrite lookup_insert_eq.
  by destruct (gt _ _).
Qed.

Lemma finalizeRequest_then_cleanup_witness :
  getMetrics (cleanupOldMetrics (finalizeRequest timed "req1" 1450).1 today) "req1"
    = None ↔
  gt (today - 1450)%float week = true.
Proof.
  refine (finalizeRequest_then_cleanup timed "req1" timed_metric 1450 today _).
  vm_compute. reflexivity.
Defined.

End CollectorLaws.

(** * Properties of the localStorage mock *)
Module LocalStorageSpec.
Import JsObject LocalStorage.

(** An item that was set under a key other than [__proto__] is read back
    as it was set, except that the empty string is read back as [null];
    the items of the other keys are read as before. *)
Theorem getItem_setItem (store : gmap string string) (key value : string) :
  key ≠ "__proto__" →
  getItem (setItem store key value) key =
    (if String.eqb value EmptyString then Null else Text value) ∧
  ∀ other, other ≠ key →
    getItem (setItem store key value) other = getItem store other.
Proof.
  intros Hkey. apply String.eqb_neq in Hkey.
  unfold getItem, setItem. rewrite Hkey. split.
  - by rewrite lookup_insert_eq.
  - intros other Hne. by rewrite lookup_insert_ne.
Qed.

Lemma getItem_setItem_witness :
  getItem (setItem ∅ "theme" "dark") "theme" = Text "dark" ∧
  ∀ other, other ≠ "theme" →
    getItem (setItem ∅ "theme" "dark") other = getItem ∅ other.
Proof.
  refine (getItem_setItem ∅ "theme" "dark" _). discriminate.
Defined.

(** [getItem] never returns the empty string: an empty string that was
    set counts in [length] and is read back as [null]. *)
Theorem getItem_never_empty (store : gmap string string) (key : string) :
  getItem store key ≠ Text EmptyString ∧
  (key ≠ "__proto__" →
   getItem (setItem store key EmptyString) key = Null ∧
   0 < length (setItem store key EmptyString)).
Proof.
  split.
  - unfold getItem. destruct (store !! key) as [s|].
    + destruct (String.eqb s EmptyString) eqn:Hs; [done|].
      apply String.eqb_neq in Hs. congruence.
    + by destruct (inherited key).
  - intros Hkey. apply String.eqb_neq in Hkey.
    unfold getItem, setItem, length. rewrite Hkey, lookup_insert_eq.
    split; [done|].
    destruct (store !! key) as [s|] eqn:Hs.
    + rewrite <- (insert_delete_eq store).
      rewrite map_size_insert_None by apply lookup_delete_eq. lia.
    + rewrite map_size_insert_None by done. lia.
Qed.

(** For a key that names a property of [Object.prototype], [getItem]
    returns that property and not [null] when the key is not stored, also
    after [removeItem] and [clear]; and [setItem] with the key
    [__proto__] stores nothing. *)
Theorem getItem_inherited (store : gmap string string) (key value : string) :
  inherited key = true →
  getItem (removeItem store key) key = Builtin key ∧
  getItem (clear store) key = Builtin key ∧
  setItem store "__proto__" value = store.
Proof.
  intros Hkey. unfold getItem, removeItem, clear, setItem.
  by rewrite lookup_delete_eq, lookup_empty, Hkey.
Qed.

Lemma getItem_inherited_witness :
  getItem (removeItem ∅ "toString") "toString" = Builtin "toString" ∧
  getItem (clear ∅) "toString" = Builtin "toString" ∧
  setItem ∅ "__proto__" "x" = ∅.
Proof.
  refine (getItem_inherited ∅ "toString" "x" _). vm_compute. reflexivity.
Defined.

(** [removeItem] undoes the [setItem] of a key that was not stored. *)
Theorem removeItem_setItem (store : gmap string string) (key value : string) :
  store !! key = None →
  removeItem (setItem store key value) key = store.
Proof.
  intros Hnone. unfold removeItem, setItem.
  destruct (String.eqb key "__proto__").
  - by apply delete_id.
  - by rewrite delete_insert_eq, delete_id.
Qed.

Lemma removeItem_setItem_witness :
  removeItem (setItem {[ "theme" := "dark" ]} "lang" "en") "lang"
  = {[ "theme" := "dark" ]}.
Proof.
  refine (removeItem_setItem {[ "theme" := "dark" ]} "lang" "en" _).
  vm_compute. reflexivity.
Defined.

End LocalStorageSpec.

(** * Properties of the storage mock *)
Module MockStorageSpec.
Import JsObject MockStorage.

Section Values.
Variable V : Type.
Implicit Types store items result : gmap string (val V).

Lemma assign_lookup result (key other : string) (value : val V) :
  assign V result key value !! other =
    if bool_decide (other = key) && negb (String.eqb key "__proto__")
    then Some value else result !! other.
Proof.
  unfold assign. destruct (String.eqb key "__proto__"); simpl.
  - by rewrite andb_false_r.
  - rewrite andb_true_r. case_bool_decide as Hk.
    + subst. apply lookup_insert_eq.
    + by apply lookup_insert_ne.
Qed.

(** The loop of [get] on an array, started from any object. *)
Lemma get_fold_lookup store (array : list string) result (key : string) :
  foldl (λ result key,
           if has V store key then assign V result key (read V store key)
           else result)
        result array !! key =
    if bool_decide (key ∈ array) && has V store key
       && negb (String.eqb key "__proto__")
    then Some (read V store key) else result !! key.
Proof.
  revert result. induction array as [|k array IH]; intros result.
  - done.
  - cbn [foldl]. rewrite IH. destruct (decide (key = k)) as [->|Hne].
    + rewrite (bool_decide_eq_true_2 (k ∈ k :: array)) by apply list_elem_of_here.
      assert (Hstep :
        (if has V store k then assign V result k (read V store k) else result) !! k
        = if has V store k && negb (String.eqb k "__proto__")
          then Some (read V store k) else result !! k).
      { destruct (has V store k); [|done].
        rewrite assign_lookup, bool_decide_eq_true_2 by done. done. }
      rewrite Hstep. simpl.
      destruct (bool_decide (k ∈ array)); simpl; [|done].
      by destruct (has V store k && negb (String.eqb k "__proto__")).
    + assert (Hstep :
        (if has V store k then assign V result k (read V store k) else result) !! key
        = result !! key).
      { destruct (has V store k); [|done].
        rewrite assign_lookup, bool_decide_eq_false_2 by done. done. }
      rewrite Hstep.
      assert (Hin : bool_decide (key ∈ k :: array) = bool_decide (key ∈ array)).
      { apply bool_decide_ext. rewrite elem_of_cons.
        split; [by intros [?|?]|by right]. }
      by rewrite Hin.
Qed.

Lemma inherited_proto (key : string) :
  inherited key = false → String.eqb key "__proto__" = false.
Proof.
  intros Hkey. destruct (String.eqb key "__proto__") eqn:Heq; [|done].
  apply String.eqb_eq in Heq. subst key. vm_compute in Hkey. discriminate.
Qed.

(** [get] with an array resolves to an object that has exactly the
    requested keys that are stored, each with its stored value: for a key
    that is not a property name of [Object.prototype], the result has the
    key when it is in the array and in the store, and has not otherwise. *)
Theorem get_keys_lookup store (array : list string) (key : string) :
  inherited key = false →
  get V store (Keys array) !! key =
    if bool_decide (key ∈ array) then store !! key else None.
Proof.
  intros Hkey. unfold get.
  rewrite get_fold_lookup, lookup_empty, (inherited_proto key Hkey).
  unfold has, read. rewrite Hkey.
  destruct (store !! key) as [v|] eqn:Hv.
  - rewrite (bool_decide_eq_true_2 (is_Some _)) by eauto. simpl.
    by rewrite !andb_true_r.
  - rewrite (bool_decide_eq_false_2 (is_Some _)) by (by intros [? ?]).
    simpl. rewrite andb_false_r. by destruct (bool_decide _).
Qed.

(** A key that is not stored: asked for by itself it comes back with the
    value [undefined], asked for in an array it is left out; and the empty
    string asks for the whole store. *)
Theorem get_missing store (key : string) :
  store !! key = None →
  inherited key = false →
  key ≠ EmptyString →
  get V store (Key key) = {[ key := Undefined ]} ∧
  get V store (Keys [key]) = ∅ ∧
  get V store (Key EmptyString) = store.
Proof.
  intros Hnone Hkey Hne%String.eqb_neq. repeat split.
  - unfold get, read. by rewrite Hne, Hnone, Hkey.
  - apply map_eq. intros k. unfold get.
    rewrite get_fold_lookup, lookup_empty.
    destruct (decide (k = key)) as [->|Hk].
    + unfold has. rewrite Hnone, Hkey.
      rewrite (bool_decide_eq_false_2 (is_Some _)) by (by intros [? ?]).
      simpl. by rewrite andb_false_r.
    + rewrite bool_decide_eq_false_2; [done|].
      by intros ->%list_elem_of_singleton.
Qed.

(** What [set] stores, [get] returns: after [set(items)], a key of [items]
    asked for by itself comes back with the value [items] has for it, and a
    key that [items] does not have comes back as before the [set]. *)
Theorem get_set store items (key : string) :
  items !! "__proto__" = None →
  key ≠ EmptyString →
  get V (set V store items) (Key key) =
    match items !! key with
    | Some v => {[ key := v ]}
    | None => get V store (Key key)
    end.
Proof.
  intros _ Hne%String.eqb_neq. unfold get, set, read. rewrite Hne.
  destruct (items !! key) as [v|] eqn:Hv.
  - by rewrite (lookup_union_Some_l _ _ _ _ Hv).
  - by rewrite (lookup_union_r _ _ _ Hv).
Qed.

(** The loop of [remove] and [clear]. *)
Lemma delete_fold_lookup store (array : list string) (key : string) :
  foldl (λ store key, delete key store) store array !! key =
    if bool_decide (key ∈ array) then None else store !! key.
Proof.
  revert store. induction array as [|k array IH]; intros store; [done|].
  cbn [foldl]. rewrite IH. destruct (decide (key = k)) as [->|Hne].
  - rewrite (bool_decide_eq_true_2 (k ∈ k :: array)) by apply list_elem_of_here.
    rewrite lookup_delete_eq. by destruct (bool_decide _).
  - rewrite lookup_delete_ne by done.
    assert (Hin : bool_decide (key ∈ k :: array) = bool_decide (key ∈ array)).
    { apply bool_decide_ext. rewrite elem_of_cons.
      split; [by intros [?|?]|by right]. }
    by rewrite Hin.
Qed.

(** [remove] deletes the keys it is given and no other, whether or not
    they are stored; called without an argument it deletes the key named
    [undefined]; and [clear] leaves nothing. *)
Theorem remove_lookup store (k : keys) (key : string) :
  remove V store k !! key =
    (if bool_decide (key ∈ keysArray k) then None else store !! key) ∧
  remove V store NoKeys = delete "undefined" store ∧
  clear V store = ∅.
Proof.
  split; [apply delete_fold_lookup|]. split; [done|].
  apply map_eq. intros i. unfold clear.
  rewrite delete_fold_lookup, lookup_empty.
  case_bool_decide as Hin; [done|].
  destruct (store !! i) as [v|] eqn:Hv; [|done].
  exfalso. apply Hin. apply list_elem_of_fmap. exists (i, v).
  split; [done|]. by apply elem_of_map_to_list.
Qed.

End Values.

Lemma get_keys_lookup_witness :
  get nat {[ "settings" := Value 1; "config" := Value 2 ]}
      (Keys ["settings"; "missing"]) !! "settings" = Some (Value 1).
Proof.
  refine (get_keys_lookup nat {[ "settings" := Value 1; "config" := Value 2 ]}
            ["settings"; "missing"] "settings" _).
  vm_compute. reflexivity.
Defined.

Lemma get_missing_witness :
  get nat {[ "settings" := Value 1 ]} (Key "config") = {[ "config" := Undefined ]} ∧
  get nat {[ "settings" := Value 1 ]} (Keys ["config"]) = ∅ ∧
  get nat {[ "settings" := Value 1 ]} (Key EmptyString) = {[ "settings" := Value 1 ]}.
Proof.
  refine (get_missing nat {[ "settings" := Value 1 ]} "config" _ _ _).
  - vm_compute. reflexivity.
  - vm_compute. reflexivity.
  - discriminate.
Defined.

Lemma get_set_witness :
  get nat (set nat {[ "settings" := Value 1 ]} {[ "settings" := Value 2 ]})
      (Key "settings")
  = {[ "settings" := Value 2 ]}.
Proof.
  refine (get_set nat {[ "settings" := Value 1 ]} {[ "settings" := Value 2 ]}
            "settings" _ _).
  - vm_compute. reflexivity.
  - discriminate.
Defined.

End MockStorageSpec.

(** * Properties of the mock requests *)
Module MockDataSpec.
Import MockData.

Lemma createMockRequests_ids (count : nat) (base : Overrides.t)
    (clock : nat → float) (env : nat → Env) :
  id <$> createMockRequests count base clock env
  = (λ i, "req-" +:+ pretty i) <$> seq 0 count.
Proof.
  unfold createMockRequests. rewrite <- list_fmap_compose.
  by apply list_fmap_ext.
Qed.

(** [createMockRequests] returns [count] requests; the one of index [i] has
    the id req-i, the url test-i and the timestamp of the clock less [i]
    seconds, whatever the base overrides say of these three; every other
    property is the base override when there is one and the default of
    [createMockRequest] otherwise. *)
Theorem createMockRequests_lookup (count : nat) (base : Overrides.t)
    (clock : nat → float) (env : nat → Env) (i : nat) :
  i < count →
  length (createMockRequests count base clock env) = count ∧
  ∃ r,
    createMockRequests count base clock env !! i = Some r ∧
    id r = "req-" +:+ pretty i ∧
    url r = "https://api.example.com/test-" +:+ pretty i ∧
    timestamp r = (clock i - Js.of_nat i * 1000)%float ∧
    method r = default "GET" (Overrides.method base) ∧
    domain r = default "example.com" (Overrides.domain base) ∧
    pageUrl r = default "https://example.com/page" (Overrides.pageUrl base) ∧
    status r = default 200%float (Overrides.status base) ∧
    statusText r = default "OK" (Overrides.statusText base) ∧
    responseTime r = default 234%float (Overrides.responseTime base) ∧
    requestHeaders r =
      default {[ "Content-Type" := "application/json"; "User-Agent" := "Mozilla/5.0" ]}
              (Overrides.requestHeaders base) ∧
    responseHeaders r =
      default {[ "Content-Type" := "application/json"; "Content-Length" := "1234" ]}
              (Overrides.responseHeaders base) ∧
    requestBody r = default None (Overrides.requestBody base) ∧
    responseBody r = default None (Overrides.responseBody base) ∧
    type r = default "xmlhttprequest" (Overrides.type base).
Proof.
  intros Hi. unfold createMockRequests. split.
  - by rewrite length_fmap, length_seq.
  - eexists. rewrite list_lookup_fmap, lookup_seq_lt by done. simpl.
    split; [reflexivity|]. by repeat split.
Qed.

(** [createMockRequests(5, base)] with a base that has an id, a domain and
    response headers; the third request. *)
Lemma createMockRequests_lookup_witness :
  let base :=
    {| Overrides.id := Some "ignored"; Overrides.url := None;
       Overrides.method := None; Overrides.domain := Some "api.example.com";
       Overrides.pageUrl := None; Overrides.status := None;
       Overrides.statusText := None; Overrides.responseTime := None;
       Overrides.timestamp := None; Overrides.requestHeaders := None;
       Overrides.responseHeaders := Some {[ "X-Test" := "1" ]};
       Overrides.requestBody := None;
       Overrides.responseBody := None; Overrides.type := None |} in
  let clock := λ _ : nat, Collector.today in
  let env := λ _ : nat, {| now := Collector.today; generated := "req-x" |} in
  length (createMockRequests 5 base clock env) = 5 ∧
  ∃ r,
    createMockRequests 5 base clock env !! 2 = Some r ∧
    id r = "req-2" ∧
    url r = "https://api.example.com/test-2" ∧
    timestamp r = (Collector.today - 2000)%float ∧
    method r = "GET" ∧
    domain r = "api.example.com" ∧
    pageUrl r = "https://example.com/page" ∧
    status r = 200%float ∧
    statusText r = "OK" ∧
    responseTime r = 234%float ∧
    requestHeaders r =
      {[ "Content-Type" := "application/json"; "User-Agent" := "Mozilla/5.0" ]} ∧
    responseHeaders r = {[ "X-Test" := "1" ]} ∧
    requestBody r = None ∧
    responseBody r = None ∧
    type r = "xmlhttprequest".
Proof.
  intros base clock env.
  refine (createMockRequests_lookup 5 base clock env 2 _). lia.
Defined.

(** The ids of the requests of one call of [createMockRequests] are
    pairwise different. *)
Theorem createMockRequests_unique_ids (count : nat) (base : Overrides.t)
    (clock : nat → float) (env : nat → Env) :
  NoDup (id <$> createMockRequests count base clock env).
Proof.
  rewrite createMockRequests_ids.
  assert (Hinj : Inj (=) (=) (λ i : nat, "req-" +:+ pretty i)).
  { intros i j Hij. by apply (inj (String.app "req-")), (inj pretty) in Hij. }
  apply (NoDup_fmap_2 _), NoDup_seq.
Qed.

Lemma filter_none {A} (p : A → bool) (l : list A) :
  (∀ x, x ∈ l → p x = false) → List.filter p l = [].
Proof.
  induction l as [|x l IH]; [done|]. intros Hp. simpl.
  rewrite (Hp x) by apply list_elem_of_here.
  apply IH. intros y Hy. apply Hp. by apply list_elem_of_further.
Qed.

Lemma filter_all {A} (p : A → bool) (l : list A) :
  (∀ x, x ∈ l → p x = true) → List.filter p l = l.
Proof.
  induction l as [|x l IH]; [done|]. intros Hp. simpl.
  rewrite (Hp x) by apply list_elem_of_here. f_equal.
  apply IH. intros y Hy. apply Hp. by apply list_elem_of_further.
Qed.

Lemma elem_of_existingIds_mock (count : nat) (base : Overrides.t)
    (clock : nat → float) (env : nat → Env) (i : nat) :
  "req-" +:+ pretty i ∈ existingIds (createMockRequests count base clock env)
  ↔ i < count.
Proof.
  unfold existingIds. rewrite elem_of_list_to_set, createMockRequests_ids.
  rewrite list_elem_of_fmap. split.
  - intros (j & Hij & Hj). apply (inj (String.app "req-")), (inj pretty) in Hij.
    subst j. apply elem_of_seq in Hj. lia.
  - intros Hi. exists i. split; [done|]. apply elem_of_seq. lia.
Qed.

(** Import over existing mock data: the requests of a second call of
    [createMockRequests] that the skip-duplicates filter keeps are those
    of index [m] and above, where [m] is the count of the first call;
    none is kept when the second count is not above the first, as for the 5
    existing and 3 imported requests of the test. *)
Theorem newRequests_createMockRequests (m n : nat) (base1 base2 : Overrides.t)
    (clock1 clock2 : nat → float) (env1 env2 : nat → Env) :
  newRequests (createMockRequests m base1 clock1 env1)
              (createMockRequests n base2 clock2 env2)
  = drop m (createMockRequests n base2 clock2 env2) ∧
  (n ≤ m →
   newRequests (createMockRequests m base1 clock1 env1)
               (createMockRequests n base2 clock2 env2) = []).
Proof.
  assert (Hdrop : newRequests (createMockRequests m base1 clock1 env1)
                    (createMockRequests n base2 clock2 env2)
                  = drop m (createMockRequests n base2 clock2 env2)).
  { unfold newRequests.
    rewrite <- (take_drop m (createMockRequests n base2 clock2 env2)) at 1.
    rewrite List.filter_app.
    rewrite filter_none, filter_all; [done| |].
    - intros r Hr. apply negb_true_iff, bool_decide_eq_false_2.
      apply list_elem_of_lookup in Hr as [k Hk].
      rewrite lookup_drop in Hk. unfold createMockRequests at 1 in Hk.
      rewrite list_lookup_fmap in Hk.
      destruct (seq 0 n !! (m + k)) as [i|] eqn:Hi; [|done].
      apply lookup_seq in Hi as [-> Hlt]. injection Hk as <-. simpl.
      rewrite elem_of_existingIds_mock. lia.
    - intros r Hr. apply negb_false_iff, bool_decide_eq_true_2.
      apply list_elem_of_lookup in Hr as [k Hk].
      apply lookup_take_Some in Hk as [Hk Hlt].
      unfold createMockRequests at 1 in Hk. rewrite list_lookup_fmap in Hk.
      destruct (seq 0 n !! k) as [i|] eqn:Hi; [|done].
      apply lookup_seq in Hi as [-> _]. injection Hk as <-. simpl.
      by rewrite elem_of_existingIds_mock. }
  split; [done|]. intros Hle. rewrite Hdrop. apply drop_ge.
  unfold createMockRequests. rewrite length_fmap, length_seq. done.
Qed.

End MockDataSpec.

(** * Properties of the randomUUID mock *)
Module UuidSpec.
Import Uuid.

Lemma below_16 (p : N → bool) :
  forallb p (N.of_nat <$> seq 0 16) = true → ∀ v, (v < 16)%N → p v = true.
Proof.
  intros Hp v Hv. apply (proj1 (forallb_forall _ _) Hp).
  apply list_elem_of_In, list_elem_of_fmap. exists (N.to_nat v).
  split; [lia|]. apply elem_of_seq. lia.
Qed.

Lemma replacement_x (r : N) :
  (r < 16)%N →
  replacement "x" r = String (hex_char r) EmptyString ∧
  is_hex (hex_char r) = true.
Proof.
  intros Hr.
  apply (below_16 (λ r, String.eqb (replacement "x" r)
                          (String (hex_char r) EmptyString)
                        && is_hex (hex_char r))) in Hr;
    [|vm_compute; reflexivity].
  apply andb_true_iff in Hr as [Heq Hhex]. by apply String.eqb_eq in Heq.
Qed.

Lemma replacement_y (r : N) :
  (r < 16)%N →
  replacement "y" r = String (hex_char (N.lor (N.land r 3) 8)) EmptyString ∧
  is_variant (hex_char (N.lor (N.land r 3) 8)) = true.
Proof.
  intros Hr.
  apply (below_16 (λ r, String.eqb (replacement "y" r)
                          (String (hex_char (N.lor (N.land r 3) 8)) EmptyString)
                        && is_variant (hex_char (N.lor (N.land r 3) 8)))) in Hr;
    [|vm_compute; reflexivity].
  apply andb_true_iff in Hr as [Heq Hhex]. by apply String.eqb_eq in Heq.
Qed.

(** Whatever the random draws, each an integer from 0 to 15, [randomUUID]
    returns a string of 36 characters that has the shape of a version 4
    UUID: hexadecimal digits in groups of 8, 4, 4, 4 and 12 separated by
    hyphens, the third group starting with 4 and the fourth with 8, 9, a
    or b. *)
Theorem randomUUID_is_uuid_v4 (draws : nat → N) :
  (∀ i, (draws i < 16)%N) →
  is_uuid_v4 (randomUUID draws) = true ∧
  String.length (randomUUID draws) = 36.
Proof.
  intros H. unfold randomUUID. simpl replace_xy.
  repeat match goal with
  | |- context [replacement "x" (draws ?i)] =>
      rewrite (proj1 (replacement_x (draws i) (H i)))
  | |- context [replacement "y" (draws ?i)] =>
      rewrite (proj1 (replacement_y (draws i) (H i)))
  end.
  simpl String.app. split; [|reflexivity].
  unfold is_uuid_v4. simpl.
  repeat match goal with
  | |- context [is_hex (hex_char (draws ?i))] =>
      rewrite (proj2 (replacement_x (draws i) (H i)))
  | |- context [is_variant (hex_char (N.lor (N.land (draws ?i) 3) 8))] =>
      rewrite (proj2 (replacement_y (draws i) (H i)))
  end.
  reflexivity.
Qed.

Lemma randomUUID_is_uuid_v4_witness :
  is_uuid_v4 (randomUUID (λ i, N.of_nat (i mod 16))) = true ∧
  String.length (randomUUID (λ i, N.of_nat (i mod 16))) = 36.
Proof.
  refine (randomUUID_is_uuid_v4 (λ i, N.of_nat (i mod 16)) _).
  intros i. pose proof (Nat.mod_upper_bound i 16). lia.
Defined.

End UuidSpec.
